(** * send_qr.py: decode a base64 PNG, save it, mail it

    A shallow embedding of [scripts/send_qr.py] and of the three library
    routines its behaviour rests on ([str.strip], [re.sub] with an anchored
    literal pattern, [base64.b64decode]), followed by the properties of the
    program that its specification states.

    Python values are modelled as follows.
    - [str] is a sequence of Unicode code points, so a [str] is a [list N];
      ASCII literals are written with [py "..."].
    - [bytes] is a sequence of octets, a [list N] whose elements are stored
      through [to_uchar].
    - The process environment (argv, stdin, the clock, the home directory,
      the mail helper) is a record [Env]; what the process does to the
      outside (stdout, stderr, the file system, subprocesses started) is a
      record [World] threaded through a state-and-exception monad. *)

From Stdlib Require Import Ascii String DecimalString.
From Stdlib Require Import List NArith ZArith Bool Lia.
Import ListNotations.

Local Open Scope N_scope.

(** ** Python strings and bytes *)

Definition str := list N.
Definition bytes := list N.

(** An ASCII literal as a Python [str]. *)
Definition py (s : string) : str :=
  map N_of_ascii (list_ascii_of_string s).
Arguments py s%_string.

Fixpoint str_eqb (a b : str) : bool :=
  match a, b with
  | [], [] => true
  | x :: a', y :: b' => (x =? y) && str_eqb a' b'
  | _, _ => false
  end.

(** [str(n)] for a non-negative integer. *)
Definition str_of_N (n : N) : str :=
  py (NilEmpty.string_of_uint (N.to_uint n)).

(** ** [str.strip()]

    With no argument, [strip] removes the characters for which
    [Py_UNICODE_ISSPACE] holds from both ends. *)

Definition isspace (c : N) : bool :=
  ((9 <=? c) && (c <=? 13)) || ((28 <=? c) && (c <=? 32))
  || (c =? 133) || (c =? 160) || (c =? 5760)
  || ((8192 <=? c) && (c <=? 8202))
  || (c =? 8232) || (c =? 8233) || (c =? 8239) || (c =? 8287)
  || (c =? 12288).

Fixpoint lstrip (s : str) : str :=
  match s with
  | c :: s' => if isspace c then lstrip s' else s
  | [] => []
  end.

Fixpoint rstrip (s : str) : str :=
  match s with
  | c :: s' =>
      match rstrip s' with
      | [] => if isspace c then [] else [c]
      | r => c :: r
      end
  | [] => []
  end.

Definition strip (s : str) : str := rstrip (lstrip s).

(** ** [re.sub(r'^data:image/png;base64,', '', s)]

    The pattern is [^] followed by literal characters only, and the call
    passes no flags: [^] matches at index 0 and nowhere else, so the
    substitution deletes the literal when [s] begins with it and returns
    [s] as it is otherwise. *)

Definition data_uri_prefix : str := py "data:image/png;base64,".

(** [match_at p s] is what is left of [s] after [p] when [s] begins with
    [p]. *)
Fixpoint match_at (p s : str) : option str :=
  match p, s with
  | [], _ => Some s
  | x :: p', y :: s' => if x =? y then match_at p' s' else None
  | _ :: _, [] => None
  end.

Definition re_sub_data_uri (s : str) : str :=
  match match_at data_uri_prefix s with
  | Some rest => rest
  | None => s
  end.

(** ** Exceptions *)

Inductive exn :=
| SystemExit (code : Z)
| ValueError (msg : str)
| BinasciiError (msg : str)
| TimeoutExpired (cmd : list str) (timeout : N).

(** [isinstance(e, Exception)]: [SystemExit] derives from [BaseException]
    only. *)
Definition is_Exception (e : exn) : bool :=
  match e with
  | SystemExit _ => false
  | _ => true
  end.

Definition sp : str := [32].

Definition join_sp (l : list str) : str :=
  match l with
  | [] => []
  | x :: xs => x ++ flat_map (fun y => sp ++ y) xs
  end.

(** [str(e)], as the f-string [{e}] renders it. *)
Definition exn_str (e : exn) : str :=
  match e with
  | SystemExit c =>
      (if (c <? 0)%Z then py "-" else []) ++ str_of_N (Z.abs_N c)
  | ValueError m => m
  | BinasciiError m => m
  | TimeoutExpired cmd t =>
      py "Command '" ++ join_sp cmd ++ py "' timed out after "
        ++ str_of_N t ++ py " seconds"
  end.

Inductive Res (A : Type) :=
| Ret (a : A)
| Raise (e : exn).
Arguments Ret {A} a.
Arguments Raise {A} e.

(** ** [base64.b64decode(s)]

    [b64decode] first turns a [str] into ASCII bytes, raising [ValueError]
    when a character is not ASCII, then calls [binascii.a2b_base64] with
    [strict_mode] off. *)

Definition BASE64_PAD : N := 61.

Definition to_uchar (x : N) : N := N.land x 255.

(** The decoding table: the 6-bit value of an alphabet character, and a
    value of 64 or more for every other octet. *)
Definition table_a2b_base64 (c : N) : N :=
  if (65 <=? c) && (c <=? 90) then c - 65
  else if (97 <=? c) && (c <=? 122) then c - 97 + 26
  else if (48 <=? c) && (c <=? 57) then c - 48 + 52
  else if c =? 43 then 62
  else if c =? 47 then 63
  else 255.

(** What follows the loop when the input is exhausted. *)
Definition a2b_end (quad_pos : N) (bin_data : bytes) : Res bytes :=
  if negb (quad_pos =? 0) then
    if quad_pos =? 1 then
      Raise (BinasciiError
        (py "Invalid base64-encoded string: number of data characters ("
         ++ str_of_N (N.of_nat (length bin_data) / 3 * 4 + 1)
         ++ py ") cannot be 1 more than a multiple of 4"))
    else Raise (BinasciiError (py "Incorrect padding"))
  else Ret bin_data.

(** The loop over the input octets.  [bin_data] is the output written so
    far; a complete pad sequence leaves the loop at once ([goto done]). *)
Fixpoint a2b_loop (ascii_data : list N) (quad_pos leftchar pads : N)
    (bin_data : bytes) : Res bytes :=
  match ascii_data with
  | [] => a2b_end quad_pos bin_data
  | this_ch :: rest =>
      if this_ch =? BASE64_PAD then
        if 2 <=? quad_pos then
          let pads := pads + 1 in
          if 4 <=? quad_pos + pads then Ret bin_data
          else a2b_loop rest quad_pos leftchar pads bin_data
        else a2b_loop rest quad_pos leftchar pads bin_data
      else
        let this_ch := table_a2b_base64 this_ch in
        if 64 <=? this_ch then a2b_loop rest quad_pos leftchar pads bin_data
        else
          match quad_pos with
          | 0 => a2b_loop rest 1 this_ch 0 bin_data
          | 1 =>
              a2b_loop rest 2 (N.land this_ch 15) 0
                (bin_data ++ [to_uchar
                   (N.lor (N.shiftl leftchar 2) (N.shiftr this_ch 4))])
          | 2 =>
              a2b_loop rest 3 (N.land this_ch 3) 0
                (bin_data ++ [to_uchar
                   (N.lor (N.shiftl leftchar 4) (N.shiftr this_ch 2))])
          | 3 =>
              a2b_loop rest 0 0 0
                (bin_data ++ [to_uchar
                   (N.lor (N.shiftl leftchar 6) this_ch)])
          | _ => a2b_loop rest quad_pos leftchar 0 bin_data
          end
  end.

Definition a2b_base64 (data : list N) : Res bytes :=
  a2b_loop data 0 0 0 [].

Definition isascii (s : str) : bool := forallb (fun c => c <? 128) s.

Definition b64decode (s : str) : Res bytes :=
  if isascii s then a2b_base64 s
  else Raise (ValueError
                (py "string argument should contain only ASCII characters")).

(** ** The process and its surroundings *)

(** [subprocess.CompletedProcess], with [capture_output] and [text] on. *)
Record CompletedProcess := {
  returncode : Z;
  proc_stdout : str;
  proc_stderr : str
}.

(** A child either runs to completion within the time allowed or does
    not. *)
Inductive proc_outcome :=
| Completed (r : CompletedProcess)
| TimedOut.

Definition filesystem := list (str * bytes).

Fixpoint fs_read (fs : filesystem) (path : str) : option bytes :=
  match fs with
  | [] => None
  | (p, d) :: fs' => if str_eqb p path then Some d else fs_read fs' path
  end.

(** [open(path, 'wb')] followed by [write(data)]: the file holds [data]
    and nothing of what it held before. *)
Definition fs_write (fs : filesystem) (path : str) (data : bytes)
    : filesystem :=
  (path, data) :: filter (fun kv => negb (str_eqb (fst kv) path)) fs.

(** What the process is given. *)
Record Env := {
  argv : list str;                  (* sys.argv *)
  stdin : str;                      (* what sys.stdin.read() returns *)
  clock : nat -> str;               (* k-th time.strftime('%H:%M:%S') *)
  userhome : str;                   (* the home directory behind "~" *)
  child : list str -> filesystem -> proc_outcome
                                    (* how a command run as a child ends *)
}.

(** What the process leaves behind. *)
Record World := {
  stdout : list str;                (* one entry per print() *)
  stderr : list str;                (* one entry per print(file=sys.stderr) *)
  files : filesystem;
  spawned : list (list str * N);    (* subprocess.run: command, timeout *)
  ticks : nat                       (* clock readings so far *)
}.

Definition init_world (fs : filesystem) : World :=
  {| stdout := []; stderr := []; files := fs; spawned := []; ticks := 0 |}.

(** ** A monad for state and exceptions *)

Definition M (A : Type) : Type := World -> Res A * World.

Definition ret {A} (a : A) : M A := fun w => (Ret a, w).

Definition raise {A} (e : exn) : M A := fun w => (Raise e, w).

Definition bind {A B} (m : M A) (k : A -> M B) : M B :=
  fun w =>
    match m w with
    | (Ret a, w') => k a w'
    | (Raise e, w') => (Raise e, w')
    end.

Definition lift {A} (r : Res A) : M A := fun w => (r, w).

(** [try: body  except Exception as e: handler e]. *)
Definition try_except {A} (body : M A) (handler : exn -> M A) : M A :=
  fun w =>
    match body w with
    | (Raise e, w') =>
        if is_Exception e then handler e w' else (Raise e, w')
    | done => done
    end.

Declare Scope py_scope.
Delimit Scope py_scope with py.
Notation "x <- c ;; k" := (bind c (fun x => k))
  (at level 61, c at next level, right associativity) : py_scope.
Notation "c ;; k" := (bind c (fun _ => k))
  (at level 61, right associativity) : py_scope.

Definition print (s : str) : M unit :=
  fun w =>
    (Ret tt,
     {| stdout := stdout w ++ [s]; stderr := stderr w; files := files w;
        spawned := spawned w; ticks := ticks w |}).

Definition print_stderr (s : str) : M unit :=
  fun w =>
    (Ret tt,
     {| stdout := stdout w; stderr := stderr w ++ [s]; files := files w;
        spawned := spawned w; ticks := ticks w |}).

Definition sys_exit {A} (code : Z) : M A := raise (SystemExit code).

Definition write_file (path : str) (data : bytes) : M unit :=
  fun w =>
    (Ret tt,
     {| stdout := stdout w; stderr := stderr w;
        files := fs_write (files w) path data;
        spawned := spawned w; ticks := ticks w |}).

(** [len(b)] *)
Definition len (b : bytes) : N := N.of_nat (length b).

(** [s.rstrip('/')] *)
Fixpoint rstrip_slash (s : str) : str :=
  match s with
  | c :: s' =>
      match rstrip_slash s' with
      | [] => if c =? 47 then [] else [c]
      | r => c :: r
      end
  | [] => []
  end.

Section Program.

Variable env : Env.

Definition time_strftime : M str :=
  fun w =>
    (Ret (clock env (ticks w)),
     {| stdout := stdout w; stderr := stderr w; files := files w;
        spawned := spawned w; ticks := S (ticks w) |}).

Definition sys_stdin_read : M str := ret (stdin env).

(** [subprocess.run(cmd, capture_output=True, text=True, timeout=t)]: the
    call is recorded, and ends with the completed process or with
    [TimeoutExpired]. *)
Definition subprocess_run (cmd : list str) (timeout : N)
    : M CompletedProcess :=
  fun w =>
    let w' :=
      {| stdout := stdout w; stderr := stderr w; files := files w;
         spawned := spawned w ++ [(cmd, timeout)]; ticks := ticks w |} in
    match child env cmd (files w) with
    | Completed r => (Ret r, w')
    | TimedOut => (Raise (TimeoutExpired cmd timeout), w')
    end.

(** [os.path.expanduser] for the current user: a leading "~" that ends
    the path or is followed by "/" is replaced by the home directory
    without its trailing slashes.  A path that does not begin with "~"
    is returned as it is; so is "~name", another user's home, which the
    program never asks for. *)
Definition expanduser (path : str) : str :=
  match path with
  | 126 :: rest =>
      match rest with
      | [] =>
          match rstrip_slash (userhome env) with
          | [] => py "/"
          | h => h
          end
      | 47 :: _ => rstrip_slash (userhome env) ++ rest
      | _ => path
      end
  | _ => path
  end.

Local Open Scope py_scope.

(** *** Literals of the program *)

Definition HIGH_VOLTAGE : N := 9889.        (* U+26A1 *)
Definition RIGHT_ARROW : N := 8594.         (* U+2192 *)
Definition WARNING_SIGN : N := 9888.        (* U+26A0 *)
Definition VARIATION_16 : N := 65039.       (* U+FE0F *)
Definition EM_DASH : N := 8212.             (* U+2014 *)
Definition CHECK_MARK : N := 9989.          (* U+2705 *)
Definition CROSS_MARK : N := 10060.         (* U+274C *)

Definition html : str :=
  py "<h2>" ++ [HIGH_VOLTAGE] ++ py " Scan this QR code with WhatsApp NOW</h2>"
  ++ py "<p><b>Open WhatsApp " ++ [RIGHT_ARROW] ++ py " Settings "
  ++ [RIGHT_ARROW] ++ py " Linked Devices " ++ [RIGHT_ARROW]
  ++ py " Link a Device</b></p>"
  ++ py "<p><img src='cid:qrcode' width='300'/></p>"
  ++ py "<p>" ++ [WARNING_SIGN; VARIATION_16]
  ++ py " This code expires in about 60 seconds! Scan it immediately.</p>"
  ++ py "<p>If it expired, just reply <b>connect</b> again and I'll send a fresh one.</p>".

Definition subject : str :=
  [HIGH_VOLTAGE] ++ py " Scan this QR NOW " ++ [EM_DASH] ++ py " 60 seconds!".

Definition qr_path : str := py "/tmp/whatsapp-qr.png".

(** *** [email_qr] *)

(** The command line handed to [subprocess.run]. *)
Definition email_cmd (owner_email qr_png_path : str) : list str :=
  let gmail_py := expanduser (py "~/.config/agents-plane/gmail.py") in
  [ py "python3"; gmail_py; py "send_html";
    owner_email; owner_email;
    subject;
    html;
    py "qrcode:" ++ qr_png_path ].

Definition email_qr (owner_email qr_png_path : str) : M bool :=
  result <- subprocess_run (email_cmd owner_email qr_png_path) 15 ;;
  (if negb (returncode result =? 0)%Z then
     print_stderr (py "Email error: " ++ proc_stderr result)
   else ret tt) ;;
  ret (returncode result =? 0)%Z.

(** *** [main] *)

(** [sys.argv[i]]; [main] indexes only below a length it has checked. *)
Definition sys_argv (i : nat) : str := nth i (argv env) [].

(** Lines 44 to 50: the payload as it reaches the decoder. *)
Definition read_payload : M str :=
  b64_data <-
    (if str_eqb (sys_argv 2) (py "-") then
       s <- sys_stdin_read ;; ret (strip s)
     else ret (sys_argv 2)) ;;
  ret (re_sub_data_uri b64_data).

(** Lines 54 to 61. *)
Definition decode_and_save (b64_data : str) : M unit :=
  try_except
    (png_bytes <- lift (b64decode b64_data) ;;
     write_file qr_path png_bytes ;;
     t <- time_strftime ;;
     print (py "[" ++ t ++ py "] QR image saved ("
            ++ str_of_N (len png_bytes) ++ py " bytes)"))
    (fun e =>
       print_stderr (py "ERROR decoding base64: " ++ exn_str e) ;;
       sys_exit 1).

(** Lines 64 to 69. *)
Definition deliver (owner_email : str) : M unit :=
  t <- time_strftime ;;
  print (py "[" ++ t ++ py "] Emailing QR to " ++ owner_email ++ py "...") ;;
  ok <- email_qr owner_email qr_path ;;
  if ok : bool then
    t <- time_strftime ;;
    print (py "[" ++ t ++ py "] " ++ [CHECK_MARK]
           ++ py " QR emailed successfully!")
  else
    t <- time_strftime ;;
    print_stderr (py "[" ++ t ++ py "] " ++ [CROSS_MARK]
                  ++ py " Email failed") ;;
    sys_exit 1.

Definition main : M unit :=
  (if (length (argv env) <? 3)%nat then
     print_stderr
       (py "Usage: python3 send_qr.py <owner_email> <base64_png_data>") ;;
     print_stderr
       (py "   OR: echo <data> | python3 send_qr.py <owner_email> -") ;;
     sys_exit 1
   else ret tt) ;;
  let owner_email := sys_argv 1 in
  b64_data <- read_payload ;;
  decode_and_save b64_data ;;
  deliver owner_email.

End Program.

(** ** Running the script *)

(** How the interpreter ends: a return from [main] is status 0,
    [sys.exit(c)] is status [c], and an exception nobody caught is
    status 1 (after a traceback, which is kept here as the exception
    itself). *)
Record Outcome := {
  world : World;
  status : Z;
  uncaught : option exn
}.

Definition run (env : Env) (fs : filesystem) : Outcome :=
  match main env (init_world fs) with
  | (Ret _, w) => {| world := w; status := 0; uncaught := None |}
  | (Raise (SystemExit c), w) =>
      {| world := w; status := c; uncaught := None |}
  | (Raise e, w) => {| world := w; status := 1; uncaught := Some e |}
  end.

(** ** The steps of a run as functions of the environment *)

(** Lines 44 to 47: the payload as the script takes it in. *)
Definition raw_payload (env : Env) : str :=
  if str_eqb (sys_argv env 2) (py "-") then strip (stdin env)
  else sys_argv env 2.

(** Line 50: the payload as it reaches the decoder. *)
Definition payload_of (env : Env) : str :=
  re_sub_data_uri (raw_payload env).

(** The world after a successful decode of [bs] from a fresh start. *)
Definition saved_world (env : Env) (fs : filesystem) (bs : bytes) : World :=
  {| stdout := [py "[" ++ clock env 0%nat ++ py "] QR image saved ("
                ++ str_of_N (len bs) ++ py " bytes)"];
     stderr := [];
     files := fs_write fs qr_path bs;
     spawned := [];
     ticks := 1 |}.

(** ** Ways of calling the script *)

(** Everything around a call except the payload. *)
Record Setting := {
  prog : str;                       (* sys.argv[0] *)
  owner : str;                      (* the address, sys.argv[1] *)
  wall_clock : nat -> str;
  home : str;
  helper : list str -> filesystem -> proc_outcome
}.

(** [send_qr.py <owner> <payload>], with [inp] waiting on standard
    input. *)
Definition by_arg (ctx : Setting) (payload inp : str) : Env :=
  {| argv := [prog ctx; owner ctx; payload];
     stdin := inp;
     clock := wall_clock ctx;
     userhome := home ctx;
     child := helper ctx |}.

(** [echo <payload> | send_qr.py <owner> -] *)
Definition by_stdin (ctx : Setting) (payload : str) : Env :=
  {| argv := [prog ctx; owner ctx; py "-"];
     stdin := payload;
     clock := wall_clock ctx;
     userhome := home ctx;
     child := helper ctx |}.

(** A setting to run examples in: the helper ends with return code [rc]
    and, on its error stream, the text "boom". *)
Definition sample_setting (rc : Z) : Setting :=
  {| prog := py "send_qr.py";
     owner := py "owner@example.com";
     wall_clock := fun k => py "12:00:0" ++ str_of_N (N.of_nat k);
     home := py "/home/agent";
     helper := fun _ _ =>
       Completed {| returncode := rc; proc_stdout := [];
                    proc_stderr := py "boom" |} |}.

(** A setting whose helper never ends in time. *)
Definition stalled_setting : Setting :=
  {| prog := py "send_qr.py";
     owner := py "owner@example.com";
     wall_clock := fun k => py "12:00:0" ++ str_of_N (N.of_nat k);
     home := py "/home/agent";
     helper := fun _ _ => TimedOut |}.

(** A setting whose helper looks for the image: it ends well when the
    file system it is started on has a file at /tmp/whatsapp-qr.png, and
    does not end otherwise. *)
Definition picky_setting : Setting :=
  {| prog := py "send_qr.py";
     owner := py "owner@example.com";
     wall_clock := fun k => py "12:00:0" ++ str_of_N (N.of_nat k);
     home := py "/home/agent";
     helper := fun _ fs =>
       match fs_read fs (py "/tmp/whatsapp-qr.png") with
       | Some _ =>
           Completed {| returncode := 0; proc_stdout := [];
                        proc_stderr := py "boom" |}
       | None => TimedOut
       end |}.

(** An environment that is [env] but for what waits on standard input. *)
Definition with_stdin (env : Env) (inp : str) : Env :=
  {| argv := argv env;
     stdin := inp;
     clock := clock env;
     userhome := userhome env;
     child := child env |}.

(** A data URI with a space in front of it. *)
Definition spaced_data_uri : str := py " data:image/png;base64,SGVsbG8=".

(** ** Vocabulary of the specification *)

(** The base64 alphabet of RFC 4648, section 4. *)
Definition b64_alphabet : str :=
  py "ABCDEFGHIJKLMNOPQRSTUVWXYZabcdefghijklmnopqrstuvwxyz0123456789+/".

Definition in_alphabet (c : N) : bool := existsb (N.eqb c) b64_alphabet.

(** A valid base64 string: groups of four alphabet characters, the last
    of which may end in one or two pad characters. *)
Fixpoint valid_base64 (s : str) : bool :=
  match s with
  | [] => true
  | a :: b :: c :: d :: rest =>
      in_alphabet a && in_alphabet b &&
      match rest with
      | [] =>
          (in_alphabet c && (in_alphabet d || (d =? BASE64_PAD)))
          || ((c =? BASE64_PAD) && (d =? BASE64_PAD))
      | _ => in_alphabet c && in_alphabet d && valid_base64 rest
      end
  | _ => false
  end.

(** The characters the decoder looks at: alphabet and pad. *)
Definition significant (c : N) : bool :=
  in_alphabet c || (c =? BASE64_PAD).

(** [s.find(p)]: the index of the first occurrence of [p] in [s]. *)
Fixpoint str_find (p s : str) : option nat :=
  match match_at p s with
  | Some _ => Some 0%nat
  | None =>
      match s with
      | [] => None
      | _ :: s' => option_map S (str_find p s')
      end
  end.

(** The standard encoding (RFC 4648, section 4; Python's
    [base64.b64encode]), which whoever produces the payload applies:
    three octets give four alphabet characters, and a last group of one
    or two octets is filled up with pad characters. *)
Definition b64_char (v : N) : N := nth (N.to_nat v) b64_alphabet 0.

Fixpoint b64encode (bs : bytes) : str :=
  match bs with
  | [] => []
  | [a] =>
      [b64_char (N.shiftr a 2);
       b64_char (N.shiftl (N.land a 3) 4);
       BASE64_PAD; BASE64_PAD]
  | [a; b] =>
      [b64_char (N.shiftr a 2);
       b64_char (N.lor (N.shiftl (N.land a 3) 4) (N.shiftr b 4));
       b64_char (N.shiftl (N.land b 15) 2);
       BASE64_PAD]
  | a :: b :: c :: rest =>
      b64_char (N.shiftr a 2)
      :: b64_char (N.lor (N.shiftl (N.land a 3) 4) (N.shiftr b 4))
      :: b64_char (N.lor (N.shiftl (N.land b 15) 2) (N.shiftr c 6))
      :: b64_char (N.land c 63)
      :: b64encode rest
  end.

(** The prefix of a data URI of another media type, and the fifteen
    octets that its alphabet characters, "dataimage/jpegbase64", stand
    for. *)
Definition jpeg_uri_prefix : str := py "data:image/jpeg;base64,".

Definition jpeg_prefix_octets : bytes :=
  [117; 171; 90; 138; 102; 160; 123; 248; 233; 122; 6; 218; 177; 238; 184].

(** A sequence of octets. *)
Definition octets (bs : bytes) : Prop := Forall (fun b => b < 256) bs.

(** The environment of a call with [payload] as the second argument and
    everything else as in [env]. *)
Definition with_payload (env : Env) (payload : str) : Env :=
  {| argv := [nth 0 (argv env) []; nth 1 (argv env) []; payload];
     stdin := stdin env;
     clock := clock env;
     userhome := userhome env;
     child := child env |}.

(** ** Basic facts *)

Lemma str_eqb_refl (s : str) : str_eqb s s = true.
Proof.
  induction s as [|c s IH]; simpl; [reflexivity|].
  now rewrite N.eqb_refl, IH.
Qed.

Lemma str_eqb_eq (a b : str) : str_eqb a b = true <-> a = b.
Proof.
  split; [|intros ->; apply str_eqb_refl].
  revert b; induction a as [|x a IH]; intros [|y b]; simpl;
    try discriminate; [reflexivity|].
  intros H; apply andb_true_iff in H as [Hxy Hab].
  apply N.eqb_eq in Hxy; subst; f_equal; now apply IH.
Qed.

Lemma str_eqb_neq (a b : str) : a <> b -> str_eqb a b = false.
Proof.
  intros Hne; destruct (str_eqb a b) eqn:E; [|reflexivity].
  now apply str_eqb_eq in E.
Qed.

Lemma read_payload_eq (env : Env) (w : World) :
  read_payload env w = (Ret (payload_of env), w).
Proof.
  unfold read_payload, payload_of, raw_payload, bind, sys_stdin_read, ret.
  destruct (str_eqb (sys_argv env 2) (py "-")); reflexivity.
Qed.

(** The decoder raises [binascii.Error] or [ValueError], never
    [SystemExit]: the handler of [main] sees every failure of it. *)
Lemma a2b_loop_Exception (data : list N) :
  forall q l p out e,
    a2b_loop data q l p out = Raise e -> is_Exception e = true.
Proof.
  induction data as [|c rest IH]; intros q l p out e; simpl.
  - unfold a2b_end.
    destruct (negb (q =? 0)); [|discriminate].
    destruct (q =? 1); intros [= <-]; reflexivity.
  - destruct (c =? BASE64_PAD).
    + destruct (2 <=? q); [|apply IH].
      destruct (4 <=? q + (p + 1)); [discriminate|apply IH].
    + destruct (64 <=? table_a2b_base64 c); [apply IH|].
      destruct q as [|[[|[]|]| [|[]|] |]]; apply IH.
Qed.

Lemma b64decode_Exception (s : str) (e : exn) :
  b64decode s = Raise e -> is_Exception e = true.
Proof.
  unfold b64decode, a2b_base64.
  destruct (isascii s); [apply a2b_loop_Exception|].
  intros [= <-]; reflexivity.
Qed.

Lemma decode_and_save_ok (env : Env) (fs : filesystem) (s : str) (bs : bytes) :
  b64decode s = Ret bs ->
  decode_and_save env s (init_world fs) = (Ret tt, saved_world env fs bs).
Proof.
  intros H; unfold decode_and_save, try_except, bind, lift.
  rewrite H; reflexivity.
Qed.

Lemma decode_and_save_err (env : Env) (fs : filesystem) (s : str) (e : exn) :
  b64decode s = Raise e ->
  decode_and_save env s (init_world fs) =
    (Raise (SystemExit 1),
     {| stdout := [];
        stderr := [py "ERROR decoding base64: " ++ exn_str e];
        files := fs; spawned := []; ticks := 0 |}).
Proof.
  intros H; unfold decode_and_save, try_except, bind, lift.
  rewrite H; cbn iota beta.
  rewrite (b64decode_Exception _ _ H); reflexivity.
Qed.

(** With two arguments or more after the program name, [main] is the
    three steps in a row. *)
Lemma main_with_args (env : Env) (w : World) :
  (3 <= length (argv env))%nat ->
  main env w =
    bind (decode_and_save env (payload_of env))
         (fun _ => deliver env (sys_argv env 1)) w.
Proof.
  intros Hlen; unfold main.
  apply Nat.ltb_ge in Hlen.
  unfold bind; rewrite Hlen; unfold ret; cbn iota beta.
  rewrite read_payload_eq; reflexivity.
Qed.

Lemma email_qr_completed (env : Env) (owner path : str) (w : World)
    (r : CompletedProcess) :
  child env (email_cmd env owner path) (files w) = Completed r ->
  email_qr env owner path w =
    (Ret (returncode r =? 0)%Z,
     {| stdout := stdout w;
        stderr := if (returncode r =? 0)%Z then stderr w
                  else stderr w ++ [py "Email error: " ++ proc_stderr r];
        files := files w;
        spawned := spawned w ++ [(email_cmd env owner path, 15)];
        ticks := ticks w |}).
Proof.
  intros H; unfold email_qr, bind, subprocess_run; rewrite H.
  destruct (returncode r =? 0)%Z; reflexivity.
Qed.

Lemma email_qr_timed_out (env : Env) (owner path : str) (w : World) :
  child env (email_cmd env owner path) (files w) = TimedOut ->
  email_qr env owner path w =
    (Raise (TimeoutExpired (email_cmd env owner path) 15),
     {| stdout := stdout w; stderr := stderr w; files := files w;
        spawned := spawned w ++ [(email_cmd env owner path, 15)];
        ticks := ticks w |}).
Proof.
  intros H; unfold email_qr, bind, subprocess_run; rewrite H; reflexivity.
Qed.

(** The run that fails to decode. *)
Lemma run_decode_error (env : Env) (fs : filesystem) (e : exn) :
  (3 <= length (argv env))%nat ->
  b64decode (payload_of env) = Raise e ->
  run env fs =
    {| world :=
         {| stdout := [];
            stderr := [py "ERROR decoding base64: " ++ exn_str e];
            files := fs; spawned := []; ticks := 0 |};
       status := 1;
       uncaught := None |}.
Proof.
  intros Hlen He; unfold run.
  rewrite (main_with_args _ _ Hlen); unfold bind at 1.
  rewrite (decode_and_save_err _ _ _ _ He); reflexivity.
Qed.

(** The run that decodes [bs] and whose helper ends with [r]. *)
Lemma run_helper_completed (env : Env) (fs : filesystem) (bs : bytes)
    (r : CompletedProcess) :
  (3 <= length (argv env))%nat ->
  b64decode (payload_of env) = Ret bs ->
  child env (email_cmd env (sys_argv env 1) qr_path) (fs_write fs qr_path bs)
    = Completed r ->
  run env fs =
    let emailing :=
      py "[" ++ clock env 1%nat ++ py "] Emailing QR to "
        ++ sys_argv env 1 ++ py "..." in
    let call := (email_cmd env (sys_argv env 1) qr_path, 15) in
    if (returncode r =? 0)%Z then
      {| world :=
           {| stdout :=
                stdout (saved_world env fs bs)
                ++ [emailing]
                ++ [py "[" ++ clock env 2%nat ++ py "] " ++ [CHECK_MARK]
                    ++ py " QR emailed successfully!"];
              stderr := [];
              files := fs_write fs qr_path bs;
              spawned := [call];
              ticks := 3 |};
         status := 0;
         uncaught := None |}
    else
      {| world :=
           {| stdout := stdout (saved_world env fs bs) ++ [emailing];
              stderr :=
                [py "Email error: " ++ proc_stderr r;
                 py "[" ++ clock env 2%nat ++ py "] " ++ [CROSS_MARK]
                   ++ py " Email failed"];
              files := fs_write fs qr_path bs;
              spawned := [call];
              ticks := 3 |};
         status := 1;
         uncaught := None |}.
Proof.
  intros Hlen Hd Hc; unfold run.
  rewrite (main_with_args _ _ Hlen); unfold bind at 1.
  rewrite (decode_and_save_ok _ _ _ _ Hd).
  unfold deliver, bind, time_strftime, print; cbn iota beta.
  rewrite (email_qr_completed env _ _ _ r) by exact Hc.
  destruct (returncode r =? 0)%Z; reflexivity.
Qed.

(** The run that decodes [bs] and whose helper does not end in time. *)
Lemma run_helper_timed_out (env : Env) (fs : filesystem) (bs : bytes) :
  (3 <= length (argv env))%nat ->
  b64decode (payload_of env) = Ret bs ->
  child env (email_cmd env (sys_argv env 1) qr_path) (fs_write fs qr_path bs)
    = TimedOut ->
  run env fs =
    let call := (email_cmd env (sys_argv env 1) qr_path, 15) in
    {| world :=
         {| stdout :=
              stdout (saved_world env fs bs)
              ++ [py "[" ++ clock env 1%nat ++ py "] Emailing QR to "
                  ++ sys_argv env 1 ++ py "..."];
            stderr := [];
            files := fs_write fs qr_path bs;
            spawned := [call];
            ticks := 2 |};
       status := 1;
       uncaught := Some (TimeoutExpired (fst call) 15) |}.
Proof.
  intros Hlen Hd Hc; unfold run.
  rewrite (main_with_args _ _ Hlen); unfold bind at 1.
  rewrite (decode_and_save_ok _ _ _ _ Hd).
  unfold deliver, bind, time_strftime, print; cbn iota beta.
  rewrite (email_qr_timed_out env) by exact Hc.
  reflexivity.
Qed.

(** ** The decoder *)

(** The decoding table and the alphabet agree on every octet. *)
Lemma table_below_128 :
  forallb (fun c => Bool.eqb (in_alphabet c) (table_a2b_base64 c <? 64))
          (map N.of_nat (seq 0 128)) = true.
Proof. vm_compute; reflexivity. Qed.

Lemma alphabet_is_ascii :
  forallb (fun a => a <? 128) b64_alphabet = true.
Proof. vm_compute; reflexivity. Qed.

Lemma in_alphabet_table (c : N) :
  in_alphabet c = (table_a2b_base64 c <? 64).
Proof.
  destruct (N.ltb_spec c 128) as [Hlt|Hge].
  - pose proof table_below_128 as H.
    rewrite forallb_forall in H.
    apply Bool.eqb_prop, H, in_map_iff.
    exists (N.to_nat c); split; [apply N2Nat.id|].
    apply in_seq; lia.
  - assert (Ht : table_a2b_base64 c = 255).
    { unfold table_a2b_base64.
      repeat match goal with
             | |- context [N.leb ?a ?b] => destruct (N.leb_spec a b)
             | |- context [N.eqb ?a ?b] => destruct (N.eqb_spec a b)
             end; cbn [andb]; try reflexivity; lia. }
    rewrite Ht; change (255 <? 64) with false.
    unfold in_alphabet.
    destruct (existsb (N.eqb c) b64_alphabet) eqn:E; [|reflexivity].
    apply existsb_exists in E as (a & Hin & Heq).
    apply N.eqb_eq in Heq; subst a.
    pose proof alphabet_is_ascii as H.
    rewrite forallb_forall in H; apply H, N.ltb_lt in Hin; lia.
Qed.

Lemma in_alphabet_not_pad (c : N) :
  in_alphabet c = true -> (c =? BASE64_PAD) = false.
Proof.
  intros H; destruct (N.eqb_spec c BASE64_PAD) as [->|]; [|reflexivity].
  vm_compute in H; discriminate.
Qed.

Lemma in_alphabet_ascii (c : N) : in_alphabet c = true -> (c <? 128) = true.
Proof.
  unfold in_alphabet; intros H.
  apply existsb_exists in H as (a & Hin & Heq).
  apply N.eqb_eq in Heq; subst a.
  pose proof alphabet_is_ascii as Hall.
  rewrite forallb_forall in Hall; now apply Hall.
Qed.

(** One turn of the loop on an alphabet character. *)
Lemma a2b_loop_data (c : N) (rest : list N) (q l p : N) (out : bytes) :
  in_alphabet c = true ->
  a2b_loop (c :: rest) q l p out =
    let v := table_a2b_base64 c in
    match q with
    | 0 => a2b_loop rest 1 v 0 out
    | 1 =>
        a2b_loop rest 2 (N.land v 15) 0
          (out ++ [to_uchar (N.lor (N.shiftl l 2) (N.shiftr v 4))])
    | 2 =>
        a2b_loop rest 3 (N.land v 3) 0
          (out ++ [to_uchar (N.lor (N.shiftl l 4) (N.shiftr v 2))])
    | 3 => a2b_loop rest 0 0 0 (out ++ [to_uchar (N.lor (N.shiftl l 6) v)])
    | _ => a2b_loop rest q l 0 out
    end.
Proof.
  intros H; cbn [a2b_loop].
  rewrite (in_alphabet_not_pad _ H).
  rewrite in_alphabet_table in H.
  apply N.ltb_lt in H.
  destruct (N.leb_spec 64 (table_a2b_base64 c)); [lia|reflexivity].
Qed.

(** One turn of the loop on a character that is neither in the alphabet
    nor the pad: nothing changes. *)
Lemma a2b_loop_skip (c : N) (rest : list N) (q l p : N) (out : bytes) :
  significant c = false ->
  a2b_loop (c :: rest) q l p out = a2b_loop rest q l p out.
Proof.
  unfold significant; intros H.
  apply orb_false_iff in H as [Ha Hp].
  cbn [a2b_loop]; rewrite Hp.
  rewrite in_alphabet_table in Ha.
  apply N.ltb_ge in Ha.
  destruct (N.leb_spec 64 (table_a2b_base64 c)); [reflexivity|lia].
Qed.

(** The decoder does not see the characters outside alphabet and pad. *)
Lemma a2b_loop_filter (s : list N) :
  forall q l p out,
    a2b_loop s q l p out = a2b_loop (filter significant s) q l p out.
Proof.
  induction s as [|c s IH]; intros q l p out; [reflexivity|].
  cbn [filter]; destruct (significant c) eqn:Hc.
  - cbn [a2b_loop].
    destruct (c =? BASE64_PAD).
    + destruct (2 <=? q); [|apply IH].
      destruct (4 <=? q + (p + 1)); [reflexivity|apply IH].
    + destruct (64 <=? table_a2b_base64 c); [apply IH|].
      destruct q as [|[[|[]|]| [|[]|] |]]; apply IH.
  - rewrite a2b_loop_skip by exact Hc; apply IH.
Qed.

Lemma isascii_filter (f : N -> bool) (s : str) :
  isascii s = true -> isascii (filter f s) = true.
Proof.
  unfold isascii; rewrite !forallb_forall.
  intros H c Hc; apply filter_In in Hc as [Hc _]; now apply H.
Qed.

Lemma b64decode_filter (s : str) :
  isascii s = true ->
  b64decode s = b64decode (filter significant s).
Proof.
  intros H; unfold b64decode, a2b_base64.
  rewrite H, (isascii_filter _ _ H); apply a2b_loop_filter.
Qed.

(** *** Valid base64 decodes *)

Lemma valid_base64_significant (s : str) :
  valid_base64 s = true -> forallb significant s = true.
Proof.
  remember (length s) as n eqn:Hn.
  revert s Hn; induction n as [n IH] using lt_wf_ind; intros s Hn.
  destruct s as [|a [|b [|c [|d rest]]]]; cbn [valid_base64];
    try discriminate; [reflexivity|].
  intros H.
  apply andb_true_iff in H as [Hab H].
  apply andb_true_iff in Hab as [Ha Hb].
  cbn [forallb]; unfold significant at 1 2; rewrite Ha, Hb; cbn [orb andb].
  destruct rest as [|e rest].
  - cbn [forallb]; unfold significant.
    apply orb_true_iff in H as [H|H]; apply andb_true_iff in H as [Hc Hd];
      rewrite Hc, Hd, ?orb_true_r; reflexivity.
  - apply andb_true_iff in H as [Hcd Hr].
    apply andb_true_iff in Hcd as [Hc Hd].
    unfold significant at 1 2; rewrite Hc, Hd; cbn [orb andb].
    apply (IH (length (e :: rest))); [subst n; cbn [length]; lia|reflexivity|].
    exact Hr.
Qed.

Lemma significant_ascii (c : N) : significant c = true -> (c <? 128) = true.
Proof.
  unfold significant; intros H.
  apply orb_true_iff in H as [H|H]; [now apply in_alphabet_ascii|].
  apply N.eqb_eq in H; subst c; reflexivity.
Qed.

Lemma valid_base64_ascii (s : str) :
  valid_base64 s = true -> isascii s = true.
Proof.
  intros H; apply valid_base64_significant in H.
  unfold isascii; rewrite forallb_forall in *.
  intros c Hc; apply significant_ascii, H, Hc.
Qed.

(** From the start of a group, the loop ends a valid string normally. *)
Lemma a2b_loop_valid (s : str) :
  valid_base64 s = true ->
  forall l p out, exists bs, a2b_loop s 0 l p out = Ret bs.
Proof.
  remember (length s) as n eqn:Hn.
  revert s Hn; induction n as [n IH] using lt_wf_ind; intros s Hn.
  destruct s as [|a [|b [|c [|d rest]]]]; cbn [valid_base64];
    try discriminate.
  { intros _ l p out; exists out; reflexivity. }
  intros H l p out.
  apply andb_true_iff in H as [Hab H].
  apply andb_true_iff in Hab as [Ha Hb].
  rewrite (a2b_loop_data a) by exact Ha; cbn zeta iota.
  rewrite (a2b_loop_data b) by exact Hb; cbn zeta iota.
  destruct rest as [|e rest].
  - apply orb_true_iff in H as [H|H]; apply andb_true_iff in H as [Hc Hd].
    + rewrite (a2b_loop_data c) by exact Hc; cbn zeta iota.
      apply orb_true_iff in Hd as [Hd|Hd].
      * rewrite (a2b_loop_data d) by exact Hd; cbn zeta iota.
        eexists; reflexivity.
      * apply N.eqb_eq in Hd; subst d; eexists; reflexivity.
    + apply N.eqb_eq in Hc, Hd; subst c d; eexists; reflexivity.
  - apply andb_true_iff in H as [Hcd Hr].
    apply andb_true_iff in Hcd as [Hc Hd].
    rewrite (a2b_loop_data c) by exact Hc; cbn zeta iota.
    rewrite (a2b_loop_data d) by exact Hd; cbn zeta iota.
    apply (IH (length (e :: rest))); [subst n; cbn [length]; lia|reflexivity|].
    exact Hr.
Qed.

Lemma b64decode_valid (s : str) :
  valid_base64 s = true -> exists bs, b64decode s = Ret bs.
Proof.
  intros H; unfold b64decode, a2b_base64.
  rewrite (valid_base64_ascii _ H); now apply a2b_loop_valid.
Qed.

(** ** The prefix substitution *)

Lemma match_at_app (p s : str) : match_at p (p ++ s) = Some s.
Proof.
  induction p as [|x p IH]; cbn [match_at app]; [reflexivity|].
  now rewrite N.eqb_refl.
Qed.

Lemma match_at_Some (p s r : str) : match_at p s = Some r -> s = p ++ r.
Proof.
  revert s; induction p as [|x p IH]; intros s; cbn [match_at].
  - now intros [= ->].
  - destruct s as [|y s]; [discriminate|].
    destruct (N.eqb_spec x y) as [->|]; [|discriminate].
    intros H; cbn [app]; f_equal; now apply IH.
Qed.

Lemma re_sub_data_uri_prefixed (s : str) :
  re_sub_data_uri (data_uri_prefix ++ s) = s.
Proof. unfold re_sub_data_uri; now rewrite match_at_app. Qed.

Lemma re_sub_data_uri_other (s : str) :
  match_at data_uri_prefix s = None -> re_sub_data_uri s = s.
Proof. unfold re_sub_data_uri; now intros ->. Qed.

(** A string made of alphabet and pad characters does not begin with the
    prefix: the prefix has a colon in it. *)
Lemma significant_no_prefix (s : str) :
  forallb significant s = true -> match_at data_uri_prefix s = None.
Proof.
  intros H; destruct (match_at data_uri_prefix s) as [r|] eqn:E;
    [|reflexivity].
  apply match_at_Some in E; subst s.
  rewrite forallb_app in H; apply andb_true_iff in H as [H _].
  vm_compute in H; discriminate.
Qed.

Lemma str_find_0 (p s : str) :
  str_find p s = Some 0%nat <-> match_at p s <> None.
Proof.
  destruct s as [|c s]; cbn [str_find];
    destruct (match_at p _) as [r|]; split; try congruence.
  destruct (str_find p s); cbn; congruence.
Qed.

(** ** The file system *)

Lemma fs_read_write (fs : filesystem) (path : str) (data : bytes) :
  fs_read (fs_write fs path data) path = Some data.
Proof. unfold fs_write; cbn [fs_read]; now rewrite str_eqb_refl. Qed.

(** ** Runs *)

(** A run depends on the environment only through the payload that
    reaches the decoder, the address, the clock, the home directory and
    the helper. *)
Lemma email_cmd_ext (env1 env2 : Env) (o p : str) :
  userhome env1 = userhome env2 -> email_cmd env1 o p = email_cmd env2 o p.
Proof. intros H; unfold email_cmd, expanduser; now rewrite H. Qed.

Lemma run_ext (env1 env2 : Env) (fs : filesystem) :
  (3 <= length (argv env1))%nat ->
  (3 <= length (argv env2))%nat ->
  payload_of env1 = payload_of env2 ->
  sys_argv env1 1 = sys_argv env2 1 ->
  clock env1 = clock env2 ->
  userhome env1 = userhome env2 ->
  child env1 = child env2 ->
  run env1 fs = run env2 fs.
Proof.
  intros L1 L2 Hp Ho Hc Hh Hch.
  destruct (b64decode (payload_of env1)) as [bs|e] eqn:D1.
  - assert (D2 := D1); rewrite Hp in D2.
    destruct (child env1 (email_cmd env1 (sys_argv env1 1) qr_path)
                (fs_write fs qr_path bs)) as [r|] eqn:C1.
    + assert (C2 := C1).
      rewrite Hch, Ho, (email_cmd_ext env1 env2) in C2 by exact Hh.
      rewrite (run_helper_completed env1 fs bs r L1 D1 C1).
      rewrite (run_helper_completed env2 fs bs r L2 D2 C2).
      unfold saved_world.
      now rewrite Ho, Hc, (email_cmd_ext env1 env2) by exact Hh.
    + assert (C2 := C1).
      rewrite Hch, Ho, (email_cmd_ext env1 env2) in C2 by exact Hh.
      rewrite (run_helper_timed_out env1 fs bs L1 D1 C1).
      rewrite (run_helper_timed_out env2 fs bs L2 D2 C2).
      unfold saved_world.
      now rewrite Ho, Hc, (email_cmd_ext env1 env2) by exact Hh.
  - assert (D2 := D1); rewrite Hp in D2.
    rewrite (run_decode_error env1 fs e L1 D1).
    now rewrite (run_decode_error env2 fs e L2 D2).
Qed.

(** What every run that decodes has in common, however the helper
    ends. *)
Lemma run_decoded (env : Env) (fs : filesystem) (bs : bytes) :
  (3 <= length (argv env))%nat ->
  b64decode (payload_of env) = Ret bs ->
  let w := world (run env fs) in
  files w = fs_write fs qr_path bs
  /\ nth_error (stdout w) 0 =
       Some (py "[" ++ clock env 0%nat ++ py "] QR image saved ("
             ++ str_of_N (len bs) ++ py " bytes)")
  /\ nth_error (stdout w) 1 =
       Some (py "[" ++ clock env 1%nat ++ py "] Emailing QR to "
             ++ sys_argv env 1 ++ py "...")
  /\ spawned w = [(email_cmd env (sys_argv env 1) qr_path, 15)].
Proof.
  intros Hlen Hd.
  destruct (child env (email_cmd env (sys_argv env 1) qr_path)
              (fs_write fs qr_path bs)) as [r|] eqn:C.
  - rewrite (run_helper_completed env fs bs r Hlen Hd C).
    cbn zeta; destruct (returncode r =? 0)%Z; cbn; repeat split.
  - rewrite (run_helper_timed_out env fs bs Hlen Hd C).
    cbn; repeat split.
Qed.

(** ** Properties of the specification *)

Lemma by_arg_length (ctx : Setting) (p inp : str) :
  (3 <= length (argv (by_arg ctx p inp)))%nat.
Proof. cbn; lia. Qed.

Lemma by_stdin_length (ctx : Setting) (p : str) :
  (3 <= length (argv (by_stdin ctx p)))%nat.
Proof. cbn; lia. Qed.

Lemma raw_payload_by_arg (ctx : Setting) (p inp : str) :
  p <> py "-" -> raw_payload (by_arg ctx p inp) = p.
Proof.
  intros H; unfold raw_payload, sys_argv; cbn [argv by_arg nth].
  now rewrite (str_eqb_neq _ _ H).
Qed.

Lemma raw_payload_by_stdin (ctx : Setting) (p : str) :
  raw_payload (by_stdin ctx p) = strip p.
Proof. reflexivity. Qed.

(** C1.  With the payload "SGVsbG8=" as the second command-line argument,
    the decode-and-persist step writes the five bytes of "Hello", and
    nothing else, to /tmp/whatsapp-qr.png, and the success message
    reports a byte count of 5. *)
Theorem C1_hello_is_saved :
  forall (ctx : Setting) (inp : str) (fs : filesystem),
    let env := by_arg ctx (py "SGVsbG8=") inp in
    let w := world (run env fs) in
    decode_and_save env (payload_of env) (init_world fs) =
      (Ret tt,
       {| stdout := [py "[" ++ wall_clock ctx 0%nat
                     ++ py "] QR image saved (5 bytes)"];
          stderr := [];
          files := fs_write fs (py "/tmp/whatsapp-qr.png") (py "Hello");
          spawned := [];
          ticks := 1 |})
    /\ files w = fs_write fs (py "/tmp/whatsapp-qr.png") (py "Hello")
    /\ fs_read (files w) (py "/tmp/whatsapp-qr.png") = Some (py "Hello")
    /\ length (py "Hello") = 5%nat
    /\ nth_error (stdout w) 0 =
         Some (py "[" ++ wall_clock ctx 0%nat
               ++ py "] QR image saved (5 bytes)").
Proof.
  intros ctx inp fs env w.
  assert (Hd : b64decode (payload_of env) = Ret (py "Hello"))
    by (vm_compute; reflexivity).
  destruct (run_decoded env fs _ (by_arg_length _ _ _) Hd)
    as (Hf & Hsaved & _ & _).
  fold w in Hf, Hsaved.
  split; [exact (decode_and_save_ok env fs _ _ Hd)|].
  split; [exact Hf|].
  split; [rewrite Hf; apply fs_read_write|].
  split; [reflexivity|exact Hsaved].
Qed.

(** C3.  When base64 decoding of the payload fails, the program reports
    the failure on the error stream, exits with status 1, prints no
    success message (nothing at all on standard output), writes no file
    and starts no subprocess. *)
Theorem C3_decode_failure_stops_the_run :
  forall (env : Env) (fs : filesystem) (e : exn),
    (3 <= length (argv env))%nat ->
    b64decode (payload_of env) = Raise e ->
    let out := run env fs in
    stderr (world out) = [py "ERROR decoding base64: " ++ exn_str e]
    /\ status out = 1%Z
    /\ status out <> 0%Z
    /\ stdout (world out) = []
    /\ spawned (world out) = []
    /\ files (world out) = fs.
Proof.
  intros env fs e Hlen He out; subst out.
  rewrite (run_decode_error env fs e Hlen He); cbn.
  repeat split; discriminate.
Qed.

Lemma C3_witness :
  b64decode (py "not-base64!!") =
    Raise (BinasciiError
      (py "Invalid base64-encoded string: number of data characters (9) cannot be 1 more than a multiple of 4"))
  /\ status (run (by_arg (sample_setting 0) (py "not-base64!!") []) []) = 1%Z
  /\ stdout (world (run (by_arg (sample_setting 0) (py "not-base64!!") []) []))
     = []
  /\ spawned (world (run (by_arg (sample_setting 0) (py "not-base64!!") []) []))
     = [].
Proof.
  split; [vm_compute; reflexivity|].
  pose proof
    (C3_decode_failure_stops_the_run
       (by_arg (sample_setting 0) (py "not-base64!!") []) []
       (BinasciiError
          (py "Invalid base64-encoded string: number of data characters (9) cannot be 1 more than a multiple of 4"))
       ltac:(cbn; lia) ltac:(vm_compute; reflexivity))
    as (_ & Hs & _ & Ho & Hsp & _).
  exact (conj Hs (conj Ho Hsp)).
Defined.

(** C5.  With fewer than two arguments after the program name, the
    program prints the two usage lines on the error stream and exits with
    status 1; it prints nothing else, writes no file and starts no
    subprocess. *)
Theorem C5_usage_error :
  forall (env : Env) (fs : filesystem),
    (length (argv env) < 3)%nat ->
    run env fs =
      {| world :=
           {| stdout := [];
              stderr :=
                [py "Usage: python3 send_qr.py <owner_email> <base64_png_data>";
                 py "   OR: echo <data> | python3 send_qr.py <owner_email> -"];
              files := fs;
              spawned := [];
              ticks := 0 |};
         status := 1;
         uncaught := None |}.
Proof.
  intros env fs Hlen.
  apply Nat.ltb_lt in Hlen.
  unfold run, main, bind; rewrite Hlen; reflexivity.
Qed.

Lemma C5_witness :
  status (run {| argv := [py "send_qr.py"; py "owner@example.com"];
                 stdin := py "SGVsbG8=";
                 clock := fun _ => py "12:00:00";
                 userhome := py "/home/agent";
                 child := fun _ _ => TimedOut |} []) = 1%Z.
Proof.
  rewrite C5_usage_error; [reflexivity|cbn; lia].
Defined.

(** C10.  For the empty payload the decode step succeeds with zero
    bytes: whatever the temporary file held, it is left empty, the
    success message reports 0 bytes, and the program goes on to the
    delivery, starting the helper. *)
Theorem C10_empty_payload_is_delivered :
  forall (ctx : Setting) (inp : str) (fs : filesystem),
    let env := by_arg ctx [] inp in
    let w := world (run env fs) in
    b64decode (payload_of env) = Ret []
    /\ decode_and_save env (payload_of env) (init_world fs) =
         (Ret tt,
          {| stdout := [py "[" ++ wall_clock ctx 0%nat
                        ++ py "] QR image saved (0 bytes)"];
             stderr := [];
             files := fs_write fs (py "/tmp/whatsapp-qr.png") [];
             spawned := [];
             ticks := 1 |})
    /\ fs_read (files w) (py "/tmp/whatsapp-qr.png") = Some []
    /\ nth_error (stdout w) 0 =
         Some (py "[" ++ wall_clock ctx 0%nat
               ++ py "] QR image saved (0 bytes)")
    /\ nth_error (stdout w) 1 =
         Some (py "[" ++ wall_clock ctx 1%nat ++ py "] Emailing QR to "
               ++ owner ctx ++ py "...")
    /\ spawned w = [(email_cmd env (owner ctx) (py "/tmp/whatsapp-qr.png"), 15)].
Proof.
  intros ctx inp fs env w.
  assert (Hd : b64decode (payload_of env) = Ret []) by reflexivity.
  destruct (run_decoded env fs _ (by_arg_length _ _ _) Hd)
    as (Hf & Hsaved & Hmail & Hsp).
  fold w in Hf, Hsaved, Hmail, Hsp.
  split; [exact Hd|].
  split; [exact (decode_and_save_ok env fs _ _ Hd)|].
  split; [rewrite Hf; apply fs_read_write|].
  split; [exact Hsaved|].
  split; [exact Hmail|exact Hsp].
Qed.

Lemma valid_base64_not_sentinel (s : str) :
  forallb significant s = true -> s <> py "-".
Proof. intros H ->; vm_compute in H; discriminate. Qed.

(** C2.  For a valid base64 string [s], the substitution followed by the
    decoder gives the same result on "data:image/png;base64," ++ s as on
    [s], that result is a byte sequence and not an exception, and the two
    runs of the program are the same. *)
Theorem C2_prefix_does_not_change_decoding :
  forall (s : str),
    valid_base64 s = true ->
    b64decode (re_sub_data_uri (data_uri_prefix ++ s))
      = b64decode (re_sub_data_uri s)
    /\ (exists bs : bytes, b64decode (re_sub_data_uri s) = Ret bs)
    /\ forall (ctx : Setting) (inp : str) (fs : filesystem),
         run (by_arg ctx (data_uri_prefix ++ s) inp) fs
           = run (by_arg ctx s inp) fs.
Proof.
  intros s Hv.
  pose proof (valid_base64_significant s Hv) as Hsig.
  pose proof (re_sub_data_uri_other s (significant_no_prefix s Hsig)) as Hs.
  rewrite re_sub_data_uri_prefixed, Hs.
  split; [reflexivity|].
  split; [now apply b64decode_valid|].
  intros ctx inp fs.
  apply run_ext; try reflexivity; try apply by_arg_length.
  unfold payload_of.
  rewrite raw_payload_by_arg by discriminate.
  rewrite raw_payload_by_arg by now apply valid_base64_not_sentinel.
  now rewrite re_sub_data_uri_prefixed, Hs.
Qed.

Lemma C2_witness :
  b64decode (re_sub_data_uri (data_uri_prefix ++ py "SGVsbG8="))
    = b64decode (re_sub_data_uri (py "SGVsbG8=")).
Proof.
  exact (proj1 (C2_prefix_does_not_change_decoding (py "SGVsbG8=")
                  ltac:(vm_compute; reflexivity))).
Defined.

(** C9.  The substitution deletes the prefix at index 0 and nowhere
    else.  A payload whose first occurrence of the prefix is at an index
    above 0 reaches the decoder as it is; a payload made of the prefix
    twice and then some text keeps the second copy; and any payload is
    either untouched or loses exactly a leading copy of the prefix. *)
Theorem C9_prefix_removed_only_at_start :
  forall (ctx : Setting) (inp : str) (w : World) (s b : str) (k : nat),
    str_find data_uri_prefix s = Some (S k) ->
    re_sub_data_uri s = s
    /\ read_payload (by_arg ctx s inp) w = (Ret s, w)
    /\ re_sub_data_uri (data_uri_prefix ++ data_uri_prefix ++ b)
         = data_uri_prefix ++ b
    /\ read_payload (by_arg ctx (data_uri_prefix ++ data_uri_prefix ++ b) inp) w
         = (Ret (data_uri_prefix ++ b), w)
    /\ forall t : str,
         re_sub_data_uri t = t
         \/ exists r, t = data_uri_prefix ++ r /\ re_sub_data_uri t = r.
Proof.
  intros ctx inp w s b k Hfind.
  assert (Hnone : match_at data_uri_prefix s = None).
  { destruct (match_at data_uri_prefix s) eqn:E; [|reflexivity].
    assert (H0 : str_find data_uri_prefix s = Some 0%nat)
      by (apply str_find_0; congruence).
    congruence. }
  assert (Hs : s <> py "-").
  { intros ->; vm_compute in Hfind; discriminate. }
  split; [now apply re_sub_data_uri_other|].
  split.
  { rewrite read_payload_eq; unfold payload_of.
    rewrite raw_payload_by_arg by exact Hs.
    now rewrite re_sub_data_uri_other. }
  split; [apply re_sub_data_uri_prefixed|].
  split.
  { rewrite read_payload_eq; unfold payload_of.
    rewrite raw_payload_by_arg by discriminate.
    now rewrite re_sub_data_uri_prefixed. }
  intros t; unfold re_sub_data_uri.
  destruct (match_at data_uri_prefix t) as [r|] eqn:E; [right|now left].
  exists r; split; [now apply match_at_Some|reflexivity].
Qed.

Lemma C9_witness :
  re_sub_data_uri (py "AAAAdata:image/png;base64,SGVsbG8=")
    = py "AAAAdata:image/png;base64,SGVsbG8="
  /\ re_sub_data_uri
       (py "data:image/png;base64,data:image/png;base64,SGVsbG8=")
     = py "data:image/png;base64,SGVsbG8=".
Proof.
  pose proof
    (C9_prefix_removed_only_at_start (sample_setting 0) [] (init_world [])
       (py "AAAAdata:image/png;base64,SGVsbG8=") (py "SGVsbG8=") 3
       ltac:(vm_compute; reflexivity))
    as (H1 & _ & H2 & _).
  exact (conj H1 H2).
Defined.

(** C8.  There is a payload with a character outside the base64 alphabet
    (so not valid base64) that the decoder accepts: the character is
    dropped, the rest is decoded, the bytes are written and the success
    message printed; the decode step does not raise. *)
Theorem C8_foreign_characters_are_dropped :
  exists (p : str) (bs : bytes),
    existsb (fun c => negb (significant c)) p = true
    /\ valid_base64 p = false
    /\ b64decode p = Ret bs
    /\ b64decode (filter significant p) = Ret bs
    /\ forall (ctx : Setting) (inp : str) (fs : filesystem),
         let env := by_arg ctx p inp in
         decode_and_save env (payload_of env) (init_world fs) =
           (Ret tt,
            {| stdout := [py "[" ++ wall_clock ctx 0%nat
                          ++ py "] QR image saved (5 bytes)"];
               stderr := [];
               files := fs_write fs (py "/tmp/whatsapp-qr.png") bs;
               spawned := [];
               ticks := 1 |})
         /\ files (world (run env fs))
            = fs_write fs (py "/tmp/whatsapp-qr.png") bs.
Proof.
  exists (py "SGVs-bG8="), (py "Hello").
  split; [vm_compute; reflexivity|].
  split; [vm_compute; reflexivity|].
  split; [vm_compute; reflexivity|].
  split; [vm_compute; reflexivity|].
  intros ctx inp fs env.
  assert (Hd : b64decode (payload_of env) = Ret (py "Hello"))
    by (vm_compute; reflexivity).
  split; [exact (decode_and_save_ok env fs _ _ Hd)|].
  exact (proj1 (run_decoded env fs _ (by_arg_length _ _ _) Hd)).
Qed.

(** C4.  When the helper ends with a return code other than 0, [email_qr]
    prints the helper's error text on the error stream and returns
    [False], and the program exits with status 1; when the helper ends
    with 0, [email_qr] prints nothing, returns [True], and the program
    exits with status 0. *)
Theorem C4_helper_return_code_decides :
  forall (env : Env) (fs : filesystem) (bs : bytes) (r : CompletedProcess)
         (w : World),
    (3 <= length (argv env))%nat ->
    b64decode (payload_of env) = Ret bs ->
    files w = fs_write fs qr_path bs ->
    child env (email_cmd env (sys_argv env 1) qr_path) (fs_write fs qr_path bs)
      = Completed r ->
    let call := email_qr env (sys_argv env 1) qr_path w in
    let out := run env fs in
    (returncode r <> 0%Z ->
       fst call = Ret false
       /\ stderr (snd call)
          = stderr w ++ [py "Email error: " ++ proc_stderr r]
       /\ In (py "Email error: " ++ proc_stderr r) (stderr (world out))
       /\ status out = 1%Z
       /\ uncaught out = None)
    /\ (returncode r = 0%Z ->
          fst call = Ret true
          /\ stderr (snd call) = stderr w
          /\ stderr (world out) = []
          /\ status out = 0%Z
          /\ uncaught out = None).
Proof.
  intros env fs bs r w Hlen Hd Hw Hc call out; subst call out.
  rewrite (run_helper_completed env fs bs r Hlen Hd Hc).
  rewrite (email_qr_completed env _ _ w r) by (rewrite Hw; exact Hc).
  cbn zeta; split; intros Hrc.
  - apply Z.eqb_neq in Hrc; rewrite Hrc; cbn.
    repeat split; now left.
  - apply Z.eqb_eq in Hrc; rewrite Hrc; cbn.
    repeat split.
Qed.

Lemma C4_witness :
  status (run (by_arg (sample_setting 2) (py "SGVsbG8=") []) []) = 1%Z
  /\ In (py "Email error: boom")
        (stderr (world (run (by_arg (sample_setting 2) (py "SGVsbG8=") []) [])))
  /\ status (run (by_arg (sample_setting 0) (py "SGVsbG8=") []) []) = 0%Z.
Proof.
  pose proof
    (C4_helper_return_code_decides
       (by_arg (sample_setting 2) (py "SGVsbG8=") []) [] (py "Hello")
       {| returncode := 2; proc_stdout := []; proc_stderr := py "boom" |}
       (init_world (fs_write [] qr_path (py "Hello")))
       ltac:(cbn; lia) ltac:(vm_compute; reflexivity)
       ltac:(reflexivity) ltac:(reflexivity))
    as [Hfail _].
  pose proof
    (C4_helper_return_code_decides
       (by_arg (sample_setting 0) (py "SGVsbG8=") []) [] (py "Hello")
       {| returncode := 0; proc_stdout := []; proc_stderr := py "boom" |}
       (init_world (fs_write [] qr_path (py "Hello")))
       ltac:(cbn; lia) ltac:(vm_compute; reflexivity)
       ltac:(reflexivity) ltac:(reflexivity))
    as [_ Hok].
  destruct (Hfail ltac:(discriminate)) as (_ & _ & Hin & Hst & _).
  destruct (Hok ltac:(reflexivity)) as (_ & _ & _ & Hst0 & _).
  exact (conj Hst (conj Hin Hst0)).
Defined.

Lemma email_qr_spawns_once (env : Env) (o p : str) (w : World) :
  spawned (snd (email_qr env o p w)) = spawned w ++ [(email_cmd env o p, 15)].
Proof.
  destruct (child env (email_cmd env o p) (files w)) as [r|] eqn:C.
  - now rewrite (email_qr_completed env o p w r C).
  - now rewrite (email_qr_timed_out env o p w C).
Qed.

(** C7.  After a successful decode the program starts one subprocess and
    no more.  Its command line is python3, the helper gmail.py under the
    user's configuration directory, the keyword send_html, the owner
    address twice (sender and recipient), the fixed subject, the fixed
    HTML body, whose image tag refers to content-id qrcode, and the
    attachment "qrcode:/tmp/whatsapp-qr.png"; the wait is bounded by 15
    seconds.  [email_qr] itself adds one call to those made before,
    whatever its arguments. *)
Theorem C7_one_helper_call :
  forall (env : Env) (fs : filesystem) (bs : bytes),
    (3 <= length (argv env))%nat ->
    b64decode (payload_of env) = Ret bs ->
    spawned (world (run env fs)) =
      [([py "python3";
         rstrip_slash (userhome env) ++ py "/.config/agents-plane/gmail.py";
         py "send_html";
         sys_argv env 1; sys_argv env 1;
         subject;
         html;
         py "qrcode:/tmp/whatsapp-qr.png"],
        15)]
    /\ str_find (py "<img src='cid:qrcode'") html = Some 120%nat
    /\ forall (o p : str) (w : World),
         spawned (snd (email_qr env o p w)) =
           spawned w
           ++ [([py "python3";
                 rstrip_slash (userhome env)
                   ++ py "/.config/agents-plane/gmail.py";
                 py "send_html"; o; o; subject; html; py "qrcode:" ++ p],
                15)].
Proof.
  intros env fs bs Hlen Hd.
  split; [exact (proj2 (proj2 (proj2 (run_decoded env fs bs Hlen Hd))))|].
  split; [vm_compute; reflexivity|].
  intros o p w; apply email_qr_spawns_once.
Qed.

Lemma C7_witness :
  length (spawned (world (run (by_arg (sample_setting 0) (py "SGVsbG8=") [])
                            []))) = 1%nat.
Proof.
  rewrite (proj1 (C7_one_helper_call
                    (by_arg (sample_setting 0) (py "SGVsbG8=") []) []
                    (py "Hello") ltac:(cbn; lia)
                    ltac:(vm_compute; reflexivity))).
  reflexivity.
Defined.

(** C6, as the code has it.  What is read from standard input is
    stripped of surrounding white space before use, and an argument is
    not.  For a payload [p] whose stripped form is not "-", giving [p] on
    standard input is the same run as giving the stripped [p] as the
    argument; so the two ways agree on every payload that has no white
    space around it and is not "-". *)
Theorem C6_stdin_is_the_stripped_argument :
  forall (ctx : Setting) (p inp : str) (fs : filesystem),
    strip p <> py "-" ->
    run (by_stdin ctx p) fs = run (by_arg ctx (strip p) inp) fs
    /\ (strip p = p -> run (by_stdin ctx p) fs = run (by_arg ctx p inp) fs).
Proof.
  intros ctx p inp fs Hne.
  assert (H : run (by_stdin ctx p) fs = run (by_arg ctx (strip p) inp) fs).
  { apply run_ext; try reflexivity;
      try apply by_stdin_length; try apply by_arg_length.
    unfold payload_of.
    now rewrite raw_payload_by_stdin, raw_payload_by_arg. }
  split; [exact H|].
  intros Heq; rewrite Heq in H; exact H.
Qed.

Lemma C6_witness :
  run (by_stdin (sample_setting 0) (py "  SGVsbG8= ")) []
    = run (by_arg (sample_setting 0) (py "SGVsbG8=") []) [].
Proof.
  exact (proj1 (C6_stdin_is_the_stripped_argument
                  (sample_setting 0) (py "  SGVsbG8= ") [] []
                  ltac:(vm_compute; discriminate))).
Defined.

(** C6, as stated, fails.  The payload " data:image/png;base64,SGVsbG8="
    (a data URI after one space) read from standard input is stripped,
    loses the prefix and decodes, and the run ends with status 0; given
    as the argument it keeps the space, so the prefix is not at index 0
    and stays, the decoder raises "Incorrect padding", and the run ends
    with status 1. *)
Lemma C6_counterexample :
  status (run (by_stdin (sample_setting 0) spaced_data_uri) []) = 0%Z
  /\ status (run (by_arg (sample_setting 0) spaced_data_uri []) []) = 1%Z
  /\ stderr (world (run (by_arg (sample_setting 0) spaced_data_uri []) []))
     = [py "ERROR decoding base64: Incorrect padding"]
  /\ run (by_stdin (sample_setting 0) spaced_data_uri) []
     <> run (by_arg (sample_setting 0) spaced_data_uri []) [].
Proof.
  assert (H0 : status (run (by_stdin (sample_setting 0) spaced_data_uri) [])
               = 0%Z) by (vm_compute; reflexivity).
  assert (H1 : status (run (by_arg (sample_setting 0) spaced_data_uri []) [])
               = 1%Z) by (vm_compute; reflexivity).
  split; [exact H0|].
  split; [exact H1|].
  split; [vm_compute; reflexivity|].
  intros E; rewrite E, H1 in H0; discriminate.
Qed.

(** ** Further properties of the script *)

Lemma run_usage (env : Env) (fs : filesystem) :
  (length (argv env) < 3)%nat ->
  run env fs =
    {| world :=
         {| stdout := [];
            stderr :=
              [py "Usage: python3 send_qr.py <owner_email> <base64_png_data>";
               py "   OR: echo <data> | python3 send_qr.py <owner_email> -"];
            files := fs;
            spawned := [];
            ticks := 0 |};
       status := 1;
       uncaught := None |}.
Proof.
  intros Hlen; apply Nat.ltb_lt in Hlen.
  unfold run, main, bind; rewrite Hlen; reflexivity.
Qed.




(** X1.  When the payload decodes and the helper does not end within the
    15 seconds, [TimeoutExpired] leaves [main] uncaught: the interpreter
    exits with status 1, the program itself has printed nothing on the
    error stream (no "Email error", no "Email failed"), standard output
    holds the saved and the emailing line, and the file stays written. *)
Theorem X1_helper_timeout_escapes :
  forall (env : Env) (fs : filesystem) (bs : bytes),
    (3 <= length (argv env))%nat ->
    b64decode (payload_of env) = Ret bs ->
    child env (email_cmd env (sys_argv env 1) qr_path) (fs_write fs qr_path bs)
      = TimedOut ->
    let out := run env fs in
    uncaught out
      = Some (TimeoutExpired (email_cmd env (sys_argv env 1) qr_path) 15)
    /\ status out = 1%Z
    /\ stderr (world out) = []
    /\ stdout (world out) =
         [py "[" ++ clock env 0%nat ++ py "] QR image saved ("
            ++ str_of_N (len bs) ++ py " bytes)";
          py "[" ++ clock env 1%nat ++ py "] Emailing QR to "
            ++ sys_argv env 1 ++ py "..."]
    /\ fs_read (files (world out)) qr_path = Some bs.
Proof.
  intros env fs bs Hlen Hd Hc out; subst out.
  rewrite (run_helper_timed_out env fs bs Hlen Hd Hc); cbn.
  repeat split.
Qed.

Lemma X1_witness :
  status (run (by_arg stalled_setting (py "SGVsbG8=") []) []) = 1%Z
  /\ stderr (world (run (by_arg stalled_setting (py "SGVsbG8=") []) [])) = [].
Proof.
  pose proof
    (X1_helper_timeout_escapes
       (by_arg stalled_setting (py "SGVsbG8=") []) [] (py "Hello")
       ltac:(cbn; lia) ltac:(vm_compute; reflexivity) ltac:(reflexivity))
    as (_ & Hs & He & _).
  exact (conj Hs He).
Defined.






(** X5.  Unless the second argument is "-", standard input is not
    looked at: the run is the same whatever waits there. *)
Theorem X5_stdin_is_read_only_on_the_sentinel :
  forall (env : Env) (inp : str) (fs : filesystem),
    sys_argv env 2 <> py "-" ->
    run (with_stdin env inp) fs = run env fs.
Proof.
  intros env inp fs Hne.
  destruct (Nat.lt_ge_cases (length (argv env)) 3) as [Hlt|Hge].
  - now rewrite (run_usage env fs Hlt), (run_usage (with_stdin env inp) fs Hlt).
  - apply run_ext; try reflexivity; try exact Hge.
    unfold payload_of, raw_payload, sys_argv in *; cbn [argv with_stdin].
    now rewrite (str_eqb_neq _ _ Hne).
Qed.

Lemma X5_witness :
  run (with_stdin (by_arg (sample_setting 0) (py "SGVsbG8=") [])
         (py "not-base64!!")) []
  = run (by_arg (sample_setting 0) (py "SGVsbG8=") []) [].
Proof.
  exact (X5_stdin_is_read_only_on_the_sentinel
           (by_arg (sample_setting 0) (py "SGVsbG8=") [])
           (py "not-base64!!") [] ltac:(vm_compute; discriminate)).
Defined.

(** X6.  Of the command line only the first two arguments count: the
    program name and any argument after the second change nothing. *)
Theorem X6_only_two_arguments_count :
  forall (ctx : Setting) (name payload inp : str) (more : list str)
         (fs : filesystem),
    run {| argv := name :: owner ctx :: payload :: more;
           stdin := inp;
           clock := wall_clock ctx;
           userhome := home ctx;
           child := helper ctx |} fs
    = run (by_arg ctx payload inp) fs.
Proof.
  intros ctx name payload inp more fs.
  apply run_ext; try reflexivity; cbn [argv by_arg length]; lia.
Qed.

(** *** White space around what is read from standard input *)

Lemma lstrip_all_space (l : str) : forallb isspace l = true -> lstrip l = [].
Proof.
  induction l as [|c l IH]; cbn [forallb lstrip]; [reflexivity|].
  intros H; apply andb_true_iff in H as [Hc Hl]; now rewrite Hc, IH.
Qed.

Lemma rstrip_all_space (r : str) : forallb isspace r = true -> rstrip r = [].
Proof.
  induction r as [|c r IH]; cbn [forallb rstrip]; [reflexivity|].
  intros H; apply andb_true_iff in H as [Hc Hr]; now rewrite IH, Hc.
Qed.

Lemma lstrip_app_space (l s : str) :
  forallb isspace l = true -> lstrip (l ++ s) = lstrip s.
Proof.
  induction l as [|c l IH]; cbn [forallb lstrip app]; [reflexivity|].
  intros H; apply andb_true_iff in H as [Hc Hl]; now rewrite Hc, IH.
Qed.

Lemma rstrip_app_space (s r : str) :
  forallb isspace r = true -> rstrip (s ++ r) = rstrip s.
Proof.
  intros Hr; induction s as [|c s IH]; cbn [rstrip app].
  - now apply rstrip_all_space.
  - now rewrite IH.
Qed.

Lemma lstrip_app (p r : str) :
  lstrip (p ++ r) = if forallb isspace p then lstrip r else lstrip p ++ r.
Proof.
  induction p as [|c p IH]; cbn [forallb lstrip app]; [reflexivity|].
  destruct (isspace c); cbn [andb]; [exact IH|reflexivity].
Qed.

Lemma strip_surrounded (l p r : str) :
  forallb isspace l = true -> forallb isspace r = true ->
  strip (l ++ p ++ r) = strip p.
Proof.
  intros Hl Hr; unfold strip.
  rewrite (lstrip_app_space l _ Hl), lstrip_app.
  destruct (forallb isspace p) eqn:Hp.
  - now rewrite (lstrip_all_space r Hr), (lstrip_all_space p Hp).
  - now apply rstrip_app_space.
Qed.

(** X7.  White space before and after what is read from standard input
    does not count: the run on [l ++ p ++ r], with [l] and [r] made of
    white space (the newline that echo appends, say), is the run on [p];
    and input that is white space only is the empty payload. *)
Theorem X7_stdin_white_space_is_dropped :
  forall (ctx : Setting) (l p r : str) (fs : filesystem),
    forallb isspace l = true ->
    forallb isspace r = true ->
    run (by_stdin ctx (l ++ p ++ r)) fs = run (by_stdin ctx p) fs
    /\ payload_of (by_stdin ctx (l ++ r)) = [].
Proof.
  intros ctx l p r fs Hl Hr.
  split.
  - apply run_ext; try reflexivity; try apply by_stdin_length.
    unfold payload_of; rewrite !raw_payload_by_stdin.
    now rewrite strip_surrounded.
  - unfold payload_of; rewrite raw_payload_by_stdin.
    pose proof (strip_surrounded l [] r Hl Hr) as H.
    cbn [app] in H; rewrite H; reflexivity.
Qed.

Lemma X7_witness :
  run (by_stdin (sample_setting 0) (py "  SGVsbG8=" ++ [10])) []
  = run (by_stdin (sample_setting 0) (py "SGVsbG8=")) [].
Proof.
  exact (proj1 (X7_stdin_white_space_is_dropped
                  (sample_setting 0) (py "  ") (py "SGVsbG8=") [10] []
                  ltac:(reflexivity) ltac:(reflexivity))).
Defined.

(** ** Encoding and decoding *)

(** A check made on every number below [n] holds below [n]. *)
Lemma forall_below (n : nat) (P : N -> bool) :
  forallb P (map N.of_nat (seq 0 n)) = true ->
  forall x, x < N.of_nat n -> P x = true.
Proof.
  intros H x Hx; rewrite forallb_forall in H; apply H.
  apply in_map_iff; exists (N.to_nat x); split; [apply N2Nat.id|].
  apply in_seq; lia.
Qed.

Lemma sextet_char (v : N) :
  v < 64 ->
  in_alphabet (b64_char v) = true /\ table_a2b_base64 (b64_char v) = v.
Proof.
  intros Hv.
  pose proof (forall_below 64
    (fun v => in_alphabet (b64_char v)
              && (table_a2b_base64 (b64_char v) =? v))
    ltac:(vm_compute; reflexivity) v Hv) as H.
  cbn beta in H; apply andb_true_iff in H as [H1 H2].
  now apply N.eqb_eq in H2.
Qed.

(** One turn of the loop on the character of a 6-bit value. *)
Lemma a2b_loop_sextet (v : N) (rest : list N) (q l p : N) (out : bytes) :
  v < 64 ->
  a2b_loop (b64_char v :: rest) q l p out =
    match q with
    | 0 => a2b_loop rest 1 v 0 out
    | 1 =>
        a2b_loop rest 2 (N.land v 15) 0
          (out ++ [to_uchar (N.lor (N.shiftl l 2) (N.shiftr v 4))])
    | 2 =>
        a2b_loop rest 3 (N.land v 3) 0
          (out ++ [to_uchar (N.lor (N.shiftl l 4) (N.shiftr v 2))])
    | 3 => a2b_loop rest 0 0 0 (out ++ [to_uchar (N.lor (N.shiftl l 6) v)])
    | _ => a2b_loop rest q l 0 out
    end.
Proof.
  intros Hv; destruct (sextet_char v Hv) as [Ha Ht].
  rewrite (a2b_loop_data _ rest q l p out Ha); cbn zeta.
  now rewrite Ht.
Qed.

(** The bit arithmetic of a group, checked on all octets. *)
Lemma group_first (a b : N) :
  a < 256 -> b < 256 ->
  N.shiftr a 2 < 64
  /\ N.lor (N.shiftl (N.land a 3) 4) (N.shiftr b 4) < 64
  /\ to_uchar
       (N.lor (N.shiftl (N.shiftr a 2) 2)
          (N.shiftr (N.lor (N.shiftl (N.land a 3) 4) (N.shiftr b 4)) 4)) = a
  /\ N.land (N.lor (N.shiftl (N.land a 3) 4) (N.shiftr b 4)) 15
     = N.shiftr b 4.
Proof.
  intros Ha Hb.
  pose proof (forall_below 256
    (fun a => forallb
       (fun b =>
          (N.shiftr a 2 <? 64)
          && (N.lor (N.shiftl (N.land a 3) 4) (N.shiftr b 4) <? 64)
          && (to_uchar
                (N.lor (N.shiftl (N.shiftr a 2) 2)
                   (N.shiftr
                      (N.lor (N.shiftl (N.land a 3) 4) (N.shiftr b 4)) 4))
              =? a)
          && (N.land (N.lor (N.shiftl (N.land a 3) 4) (N.shiftr b 4)) 15
              =? N.shiftr b 4))
       (map N.of_nat (seq 0 256)))
    ltac:(vm_compute; reflexivity) a Ha) as H.
  cbn beta in H.
  pose proof (forall_below 256 _ H b Hb) as H'; cbn beta in H'.
  repeat (apply andb_true_iff in H' as [H' ?]).
  repeat split;
    first [now apply N.ltb_lt | now apply N.eqb_eq].
Qed.

Lemma group_second (b c : N) :
  b < 256 -> c < 256 ->
  N.lor (N.shiftl (N.land b 15) 2) (N.shiftr c 6) < 64
  /\ to_uchar
       (N.lor (N.shiftl (N.shiftr b 4) 4)
          (N.shiftr (N.lor (N.shiftl (N.land b 15) 2) (N.shiftr c 6)) 2)) = b
  /\ N.land (N.lor (N.shiftl (N.land b 15) 2) (N.shiftr c 6)) 3
     = N.shiftr c 6.
Proof.
  intros Hb Hc.
  pose proof (forall_below 256
    (fun b => forallb
       (fun c =>
          (N.lor (N.shiftl (N.land b 15) 2) (N.shiftr c 6) <? 64)
          && (to_uchar
                (N.lor (N.shiftl (N.shiftr b 4) 4)
                   (N.shiftr
                      (N.lor (N.shiftl (N.land b 15) 2) (N.shiftr c 6)) 2))
              =? b)
          && (N.land (N.lor (N.shiftl (N.land b 15) 2) (N.shiftr c 6)) 3
              =? N.shiftr c 6))
       (map N.of_nat (seq 0 256)))
    ltac:(vm_compute; reflexivity) b Hb) as H.
  cbn beta in H.
  pose proof (forall_below 256 _ H c Hc) as H'; cbn beta in H'.
  repeat (apply andb_true_iff in H' as [H' ?]).
  repeat split;
    first [now apply N.ltb_lt | now apply N.eqb_eq].
Qed.

Lemma group_third (c : N) :
  c < 256 ->
  N.land c 63 < 64
  /\ to_uchar (N.lor (N.shiftl (N.shiftr c 6) 6) (N.land c 63)) = c.
Proof.
  intros Hc.
  pose proof (forall_below 256
    (fun c =>
       (N.land c 63 <? 64)
       && (to_uchar (N.lor (N.shiftl (N.shiftr c 6) 6) (N.land c 63)) =? c))
    ltac:(vm_compute; reflexivity) c Hc) as H.
  cbn beta in H; apply andb_true_iff in H as [H1 H2].
  split; [now apply N.ltb_lt|now apply N.eqb_eq].
Qed.

(** The last group of one octet, and of two. *)
Lemma group_one (a : N) :
  a < 256 ->
  N.shiftl (N.land a 3) 4 < 64
  /\ to_uchar
       (N.lor (N.shiftl (N.shiftr a 2) 2)
          (N.shiftr (N.shiftl (N.land a 3) 4) 4)) = a.
Proof.
  intros Ha.
  pose proof (forall_below 256
    (fun a =>
       (N.shiftl (N.land a 3) 4 <? 64)
       && (to_uchar
             (N.lor (N.shiftl (N.shiftr a 2) 2)
                (N.shiftr (N.shiftl (N.land a 3) 4) 4)) =? a))
    ltac:(vm_compute; reflexivity) a Ha) as H.
  cbn beta in H; apply andb_true_iff in H as [H1 H2].
  split; [now apply N.ltb_lt|now apply N.eqb_eq].
Qed.

Lemma group_two (b : N) :
  b < 256 ->
  N.shiftl (N.land b 15) 2 < 64
  /\ to_uchar
       (N.lor (N.shiftl (N.shiftr b 4) 4)
          (N.shiftr (N.shiftl (N.land b 15) 2) 2)) = b.
Proof.
  intros Hb.
  pose proof (forall_below 256
    (fun b =>
       (N.shiftl (N.land b 15) 2 <? 64)
       && (to_uchar
             (N.lor (N.shiftl (N.shiftr b 4) 4)
                (N.shiftr (N.shiftl (N.land b 15) 2) 2)) =? b))
    ltac:(vm_compute; reflexivity) b Hb) as H.
  cbn beta in H; apply andb_true_iff in H as [H1 H2].
  split; [now apply N.ltb_lt|now apply N.eqb_eq].
Qed.

(** At the start of a group what is left of the state does not count. *)
Lemma a2b_loop_fresh (t : list N) :
  forall l p l' p' out,
    a2b_loop t 0 l p out = a2b_loop t 0 l' p' out.
Proof.
  induction t as [|c t IH]; intros l p l' p' out; [reflexivity|].
  cbn [a2b_loop].
  destruct (c =? BASE64_PAD); [apply IH|].
  destruct (64 <=? table_a2b_base64 c); [apply IH|reflexivity].
Qed.

(** The loop on an encoding followed by anything: the octets come back;
    after whole groups the loop goes on with what follows, after a padded
    group it is over. *)
Lemma a2b_loop_encoded (bs : bytes) :
  octets bs ->
  forall (t : list N) (l p : N) (out : bytes),
    a2b_loop (b64encode bs ++ t) 0 l p out =
      match (length bs mod 3)%nat with
      | O => a2b_loop t 0 0 0 (out ++ bs)
      | _ => Ret (out ++ bs)
      end.
Proof.
  remember (length bs) as n eqn:Hn.
  revert bs Hn; induction n as [n IH] using lt_wf_ind; intros bs Hn Hoct.
  destruct bs as [|a [|b [|c rest]]]; intros t l p out.
  - subst n; cbn [b64encode app length Nat.modulo].
    rewrite app_nil_r; apply a2b_loop_fresh.
  - apply Forall_inv in Hoct.
    subst n; cbn [b64encode app length].
    destruct (group_first a 0 Hoct ltac:(reflexivity)) as (H0 & _).
    destruct (group_one a Hoct) as (H1 & E1).
    rewrite (a2b_loop_sextet _ _ _ _ _ _ H0).
    rewrite (a2b_loop_sextet _ _ _ _ _ _ H1).
    rewrite E1; reflexivity.
  - pose proof (Forall_inv Hoct) as Ha.
    pose proof (Forall_inv (Forall_inv_tail Hoct)) as Hb.
    subst n; cbn [b64encode app length].
    destruct (group_first a b Ha Hb) as (H0 & H1 & E1 & L1).
    destruct (group_two b Hb) as (H2 & E2).
    rewrite (a2b_loop_sextet _ _ _ _ _ _ H0).
    rewrite (a2b_loop_sextet _ _ _ _ _ _ H1).
    rewrite (a2b_loop_sextet _ _ _ _ _ _ H2).
    rewrite E1, L1, E2, <- app_assoc; reflexivity.
  - pose proof (Forall_inv Hoct) as Ha.
    pose proof (Forall_inv (Forall_inv_tail Hoct)) as Hb.
    pose proof (Forall_inv (Forall_inv_tail (Forall_inv_tail Hoct))) as Hc.
    pose proof (Forall_inv_tail (Forall_inv_tail (Forall_inv_tail Hoct)))
      as Hrest.
    cbn [b64encode app].
    destruct (group_first a b Ha Hb) as (H0 & H1 & E1 & L1).
    destruct (group_second b c Hb Hc) as (H2 & E2 & L2).
    destruct (group_third c Hc) as (H3 & E3).
    rewrite (a2b_loop_sextet _ _ _ _ _ _ H0).
    rewrite (a2b_loop_sextet _ _ _ _ _ _ H1).
    rewrite (a2b_loop_sextet _ _ _ _ _ _ H2).
    rewrite (a2b_loop_sextet _ _ _ _ _ _ H3).
    rewrite E1, L1, E2, L2, E3.
    rewrite (IH (length rest) ltac:(subst n; cbn [length]; lia) rest
               eq_refl Hrest).
    assert (Hmod : (n mod 3 = length rest mod 3)%nat).
    { subst n; cbn [length].
      replace (S (S (S (length rest)))) with (length rest + 1 * 3)%nat by lia.
      apply Nat.Div0.mod_add. }
    rewrite Hmod, <- !app_assoc; reflexivity.
Qed.

Lemma b64_char_significant (v : N) :
  v < 64 -> in_alphabet (b64_char v) = true.
Proof. intros Hv; exact (proj1 (sextet_char v Hv)). Qed.

(** What the encoder writes is valid base64. *)
Lemma b64encode_valid (bs : bytes) :
  octets bs -> valid_base64 (b64encode bs) = true.
Proof.
  remember (length bs) as n eqn:Hn.
  revert bs Hn; induction n as [n IH] using lt_wf_ind; intros bs Hn Hoct.
  destruct bs as [|a [|b [|c rest]]].
  - reflexivity.
  - apply Forall_inv in Hoct.
    destruct (group_first a 0 Hoct ltac:(reflexivity)) as (H0 & _).
    destruct (group_one a Hoct) as (H1 & _).
    cbn [b64encode valid_base64].
    rewrite (b64_char_significant _ H0), (b64_char_significant _ H1).
    reflexivity.
  - pose proof (Forall_inv Hoct) as Ha.
    pose proof (Forall_inv (Forall_inv_tail Hoct)) as Hb.
    destruct (group_first a b Ha Hb) as (H0 & H1 & _).
    destruct (group_two b Hb) as (H2 & _).
    cbn [b64encode valid_base64].
    rewrite (b64_char_significant _ H0), (b64_char_significant _ H1),
      (b64_char_significant _ H2).
    reflexivity.
  - pose proof (Forall_inv Hoct) as Ha.
    pose proof (Forall_inv (Forall_inv_tail Hoct)) as Hb.
    pose proof (Forall_inv (Forall_inv_tail (Forall_inv_tail Hoct))) as Hc.
    pose proof (Forall_inv_tail (Forall_inv_tail (Forall_inv_tail Hoct)))
      as Hrest.
    destruct (group_first a b Ha Hb) as (H0 & H1 & _).
    destruct (group_second b c Hb Hc) as (H2 & _).
    destruct (group_third c Hc) as (H3 & _).
    pose proof (IH (length rest) ltac:(subst n; cbn [length]; lia) rest
                  eq_refl Hrest) as Hv.
    cbn [b64encode valid_base64].
    rewrite (b64_char_significant _ H0), (b64_char_significant _ H1),
      (b64_char_significant _ H2), (b64_char_significant _ H3).
    destruct (b64encode rest); [reflexivity|exact Hv].
Qed.

Lemma b64decode_encoded (bs : bytes) :
  octets bs -> b64decode (b64encode bs) = Ret bs.
Proof.
  intros Hoct; unfold b64decode, a2b_base64.
  rewrite (valid_base64_ascii _ (b64encode_valid bs Hoct)).
  pose proof (a2b_loop_encoded bs Hoct [] 0 0 []) as H.
  rewrite app_nil_r in H; rewrite H.
  now destruct (length bs mod 3)%nat.
Qed.

(** *** Stripping a string that has no white space in it *)

Lemma significant_not_space (c : N) : significant c = true -> isspace c = false.
Proof.
  intros H.
  pose proof (significant_ascii c H) as Hc; apply N.ltb_lt in Hc.
  pose proof (forall_below 128
    (fun c => negb (significant c) || negb (isspace c))
    ltac:(vm_compute; reflexivity) c Hc) as Hall.
  cbn beta in Hall; rewrite H in Hall; cbn [negb orb] in Hall.
  now apply negb_true_iff in Hall.
Qed.

Lemma rstrip_significant (s : str) :
  forallb significant s = true -> rstrip s = s.
Proof.
  induction s as [|c s IH]; cbn [forallb rstrip]; [reflexivity|].
  intros H; apply andb_true_iff in H as [Hc Hs].
  rewrite (IH Hs), (significant_not_space c Hc).
  now destruct s.
Qed.

Lemma strip_significant (s : str) :
  forallb significant s = true -> strip s = s.
Proof.
  intros H; unfold strip.
  assert (Hl : lstrip s = s).
  { destruct s as [|c s]; [reflexivity|].
    cbn [forallb] in H; apply andb_true_iff in H as [Hc _].
    cbn [lstrip]; now rewrite (significant_not_space c Hc). }
  rewrite Hl; now apply rstrip_significant.
Qed.

(** The payload that reaches the decoder when a string of alphabet and
    pad characters is given as the argument is that string. *)
Lemma payload_of_significant_arg (env : Env) (q : str) :
  forallb significant q = true ->
  payload_of (with_payload env q) = q.
Proof.
  intros Hq; unfold payload_of, raw_payload, sys_argv.
  cbn [argv with_payload nth].
  rewrite (str_eqb_neq _ _ (valid_base64_not_sentinel q Hq)).
  apply re_sub_data_uri_other, significant_no_prefix, Hq.
Qed.

(** A run depends on the payload only through what the decoder makes of
    it. *)
Lemma run_ext_decode (env1 env2 : Env) (fs : filesystem) :
  (3 <= length (argv env1))%nat ->
  (3 <= length (argv env2))%nat ->
  b64decode (payload_of env1) = b64decode (payload_of env2) ->
  sys_argv env1 1 = sys_argv env2 1 ->
  clock env1 = clock env2 ->
  userhome env1 = userhome env2 ->
  child env1 = child env2 ->
  run env1 fs = run env2 fs.
Proof.
  intros L1 L2 Hp Ho Hc Hh Hch.
  destruct (b64decode (payload_of env1)) as [bs|e] eqn:D1;
    symmetry in Hp; rename Hp into D2.
  - destruct (child env1 (email_cmd env1 (sys_argv env1 1) qr_path)
                (fs_write fs qr_path bs)) as [r|] eqn:C1.
    + assert (C2 := C1).
      rewrite Hch, Ho, (email_cmd_ext env1 env2) in C2 by exact Hh.
      rewrite (run_helper_completed env1 fs bs r L1 D1 C1).
      rewrite (run_helper_completed env2 fs bs r L2 D2 C2).
      unfold saved_world.
      now rewrite Ho, Hc, (email_cmd_ext env1 env2) by exact Hh.
    + assert (C2 := C1).
      rewrite Hch, Ho, (email_cmd_ext env1 env2) in C2 by exact Hh.
      rewrite (run_helper_timed_out env1 fs bs L1 D1 C1).
      rewrite (run_helper_timed_out env2 fs bs L2 D2 C2).
      unfold saved_world.
      now rewrite Ho, Hc, (email_cmd_ext env1 env2) by exact Hh.
  - rewrite (run_decode_error env1 fs e L1 D1).
    now rewrite (run_decode_error env2 fs e L2 D2).
Qed.

(** *** The decoder writes octets *)

Lemma to_uchar_octet (x : N) : to_uchar x < 256.
Proof.
  unfold to_uchar; change 255 with (N.ones 8).
  rewrite N.land_ones; apply N.mod_lt; discriminate.
Qed.

Lemma octets_snoc (out : bytes) (x : N) :
  octets out -> octets (out ++ [to_uchar x]).
Proof.
  intros H; apply Forall_app; split; [exact H|].
  constructor; [apply to_uchar_octet|constructor].
Qed.

Lemma a2b_loop_octets (data : list N) :
  forall q l p out bs,
    octets out -> a2b_loop data q l p out = Ret bs -> octets bs.
Proof.
  induction data as [|c rest IH]; intros q l p out bs Hout; simpl.
  - unfold a2b_end.
    destruct (negb (q =? 0)); [destruct (q =? 1); discriminate|].
    now intros [= <-].
  - destruct (c =? BASE64_PAD).
    + destruct (2 <=? q); [|now apply IH].
      destruct (4 <=? q + (p + 1)); [now intros [= <-]|now apply IH].
    + destruct (64 <=? table_a2b_base64 c); [now apply IH|].
      destruct q as [|[[|[]|]| [|[]|] |]];
        first [now apply IH | apply IH; now apply octets_snoc].
Qed.

Lemma b64decode_octets (s : str) (bs : bytes) :
  b64decode s = Ret bs -> octets bs.
Proof.
  unfold b64decode, a2b_base64.
  destruct (isascii s); [|discriminate].
  apply a2b_loop_octets; constructor.
Qed.

(** X8.  Encoding and the script are inverse to each other: for every
    sequence of octets, the script given its standard base64 encoding
    saves exactly those octets and reports their number, and so it does
    when the encoding comes with the data-URI prefix, or on standard
    input followed by a newline. *)
Theorem X8_encoded_image_is_restored :
  forall (ctx : Setting) (bs : bytes) (inp : str) (fs : filesystem),
    octets bs ->
    let out := run (by_arg ctx (b64encode bs) inp) fs in
    b64decode (b64encode bs) = Ret bs
    /\ fs_read (files (world out)) (py "/tmp/whatsapp-qr.png") = Some bs
    /\ nth_error (stdout (world out)) 0 =
         Some (py "[" ++ wall_clock ctx 0%nat ++ py "] QR image saved ("
               ++ str_of_N (N.of_nat (length bs)) ++ py " bytes)")
    /\ run (by_arg ctx (data_uri_prefix ++ b64encode bs) inp) fs = out
    /\ run (by_stdin ctx (b64encode bs ++ [10])) fs = out.
Proof.
  intros ctx bs inp fs Hoct out.
  pose proof (b64decode_encoded bs Hoct) as Hd.
  pose proof (valid_base64_significant _ (b64encode_valid bs Hoct)) as Hsig.
  pose proof (re_sub_data_uri_other _ (significant_no_prefix _ Hsig)) as Hre.
  pose proof (valid_base64_not_sentinel _ Hsig) as Hns.
  assert (Hp : payload_of (by_arg ctx (b64encode bs) inp) = b64encode bs).
  { unfold payload_of; now rewrite raw_payload_by_arg. }
  assert (Hd' : b64decode (payload_of (by_arg ctx (b64encode bs) inp))
                = Ret bs) by now rewrite Hp.
  destruct (run_decoded _ fs bs (by_arg_length ctx _ inp) Hd')
    as (Hf & Hsaved & _).
  fold out in Hf, Hsaved.
  split; [exact Hd|].
  split; [rewrite Hf; apply fs_read_write|].
  split; [exact Hsaved|].
  split; subst out.
  - apply run_ext; try reflexivity; try apply by_arg_length.
    rewrite Hp; unfold payload_of.
    rewrite raw_payload_by_arg by discriminate.
    apply re_sub_data_uri_prefixed.
  - apply run_ext; try reflexivity;
      try apply by_arg_length; try apply by_stdin_length.
    rewrite Hp; unfold payload_of; rewrite raw_payload_by_stdin.
    pose proof (strip_surrounded [] (b64encode bs) [10] eq_refl eq_refl) as H.
    cbn [app] in H; rewrite H, (strip_significant _ Hsig); exact Hre.
Qed.

Lemma X8_witness :
  fs_read
    (files (world (run (by_arg (sample_setting 0)
                          (b64encode [137; 80; 78; 71; 13; 10; 26; 10]) [])
                     [])))
    (py "/tmp/whatsapp-qr.png")
  = Some [137; 80; 78; 71; 13; 10; 26; 10].
Proof.
  pose proof
    (X8_encoded_image_is_restored (sample_setting 0)
       [137; 80; 78; 71; 13; 10; 26; 10] [] []
       ltac:(repeat constructor))
    as (_ & H & _).
  exact H.
Defined.

(** X9.  The decoder stops at the padding.  When the payload is the
    encoding of a number of octets that is not a multiple of three (so
    that it ends in pad characters) followed by any ASCII text, the text
    is not looked at: the octets are saved and their number reported, as
    if the text were not there. *)
Theorem X9_text_after_padding_is_ignored :
  forall (env : Env) (fs : filesystem) (bs : bytes) (t : str),
    (3 <= length (argv env))%nat ->
    octets bs ->
    (length bs mod 3 <> 0)%nat ->
    isascii t = true ->
    payload_of env = b64encode bs ++ t ->
    b64decode (b64encode bs ++ t) = Ret bs
    /\ fs_read (files (world (run env fs))) (py "/tmp/whatsapp-qr.png")
       = Some bs
    /\ nth_error (stdout (world (run env fs))) 0 =
         Some (py "[" ++ clock env 0%nat ++ py "] QR image saved ("
               ++ str_of_N (N.of_nat (length bs)) ++ py " bytes)").
Proof.
  intros env fs bs t Hlen Hoct Hmod Ht Hp.
  assert (Hd : b64decode (b64encode bs ++ t) = Ret bs).
  { unfold b64decode, a2b_base64, isascii.
    rewrite forallb_app.
    fold (isascii (b64encode bs)); fold (isascii t).
    rewrite (valid_base64_ascii _ (b64encode_valid bs Hoct)), Ht.
    cbn [andb]; rewrite (a2b_loop_encoded bs Hoct).
    destruct (length bs mod 3)%nat; [contradiction|reflexivity]. }
  split; [exact Hd|].
  rewrite <- Hp in Hd.
  destruct (run_decoded env fs bs Hlen Hd) as (Hf & Hsaved & _).
  split; [rewrite Hf; apply fs_read_write|exact Hsaved].
Qed.

Lemma X9_witness :
  b64decode (py "SGVsbG8=" ++ py "V29ybGQ=") = Ret (py "Hello").
Proof.
  exact (proj1 (X9_text_after_padding_is_ignored
                  (by_arg (sample_setting 0) (py "SGVsbG8=V29ybGQ=") [])
                  [] (py "Hello") (py "V29ybGQ=")
                  ltac:(cbn; lia) ltac:(repeat constructor)
                  ltac:(discriminate) ltac:(reflexivity)
                  ltac:(reflexivity))).
Defined.

(** X10.  Characters that are neither in the alphabet nor the pad are
    skipped wherever they stand in an ASCII payload (the line breaks of a
    wrapped encoding, say): the run is the run on the payload with those
    characters taken out, given as the argument. *)
Theorem X10_foreign_characters_do_not_count :
  forall (env : Env) (fs : filesystem),
    (3 <= length (argv env))%nat ->
    isascii (payload_of env) = true ->
    b64decode (payload_of env)
      = b64decode (filter significant (payload_of env))
    /\ run env fs
       = run (with_payload env (filter significant (payload_of env))) fs.
Proof.
  intros env fs Hlen Hascii.
  split; [now apply b64decode_filter|].
  assert (Hsig : forallb significant (filter significant (payload_of env))
                 = true).
  { apply forallb_forall; intros c Hc; now apply filter_In in Hc. }
  apply run_ext_decode; try reflexivity; try exact Hlen.
  rewrite (payload_of_significant_arg env _ Hsig).
  now apply b64decode_filter.
Qed.

Lemma X10_witness :
  run (by_stdin (sample_setting 0) (py "SGVs" ++ [13; 10] ++ py "bG8=")) []
  = run (by_arg (sample_setting 0) (py "SGVsbG8=") []) [].
Proof.
  pose proof
    (proj2 (X10_foreign_characters_do_not_count
              (by_stdin (sample_setting 0)
                 (py "SGVs" ++ [13; 10] ++ py "bG8=")) []
              ltac:(cbn; lia) ltac:(reflexivity))) as H.
  exact H.
Defined.

Lemma a2b_loop_error_message (data : list N) :
  forall q l p out e,
    a2b_loop data q l p out = Raise e ->
    e = BinasciiError (py "Incorrect padding")
    \/ exists n,
         e = BinasciiError
               (py "Invalid base64-encoded string: number of data characters ("
                ++ str_of_N n
                ++ py ") cannot be 1 more than a multiple of 4").
Proof.
  induction data as [|c rest IH]; intros q l p out e; simpl.
  - unfold a2b_end.
    destruct (negb (q =? 0)); [|discriminate].
    destruct (q =? 1); intros [= <-]; [right; eexists; reflexivity|now left].
  - destruct (c =? BASE64_PAD).
    + destruct (2 <=? q); [|apply IH].
      destruct (4 <=? q + (p + 1)); [discriminate|apply IH].
    + destruct (64 <=? table_a2b_base64 c); [apply IH|].
      destruct q as [|[[|[]|]| [|[]|] |]]; apply IH.
Qed.

(** X11.  The decode failures and their messages.  A payload with a
    character that is not ASCII is refused before any decoding, with the
    line "ERROR decoding base64: string argument should contain only
    ASCII characters" and status 1, nothing written and nothing sent;
    and whatever makes the decoder fail, its exception is that
    [ValueError], or [binascii.Error] with "Incorrect padding" or with
    the count of data characters. *)
Theorem X11_decode_error_messages :
  forall (env : Env) (fs : filesystem),
    (3 <= length (argv env))%nat ->
    let out := run env fs in
    (isascii (payload_of env) = false ->
       stderr (world out) =
         [py "ERROR decoding base64: string argument should contain only ASCII characters"]
       /\ status out = 1%Z
       /\ stdout (world out) = []
       /\ files (world out) = fs
       /\ spawned (world out) = [])
    /\ forall e,
         b64decode (payload_of env) = Raise e ->
         (isascii (payload_of env) = false
          /\ e = ValueError
                   (py "string argument should contain only ASCII characters"))
         \/ (isascii (payload_of env) = true
             /\ (e = BinasciiError (py "Incorrect padding")
                 \/ exists n,
                      e = BinasciiError
                            (py "Invalid base64-encoded string: number of data characters ("
                             ++ str_of_N n
                             ++ py ") cannot be 1 more than a multiple of 4"))).
Proof.
  intros env fs Hlen out; subst out; split.
  - intros Hna.
    assert (Hd : b64decode (payload_of env)
                 = Raise (ValueError
                     (py "string argument should contain only ASCII characters")))
      by (unfold b64decode; now rewrite Hna).
    rewrite (run_decode_error env fs _ Hlen Hd).
    repeat split.
  - intros e; unfold b64decode, a2b_base64.
    destruct (isascii (payload_of env)).
    + intros H; right; split; [reflexivity|].
      exact (a2b_loop_error_message _ _ _ _ _ _ H).
    + intros [= <-]; left; now split.
Qed.

Lemma X11_witness :
  stderr (world (run (by_arg (sample_setting 0) (py "SGVsbG8=" ++ [160]) [])
                   []))
  = [py "ERROR decoding base64: string argument should contain only ASCII characters"].
Proof.
  pose proof
    (X11_decode_error_messages
       (by_arg (sample_setting 0) (py "SGVsbG8=" ++ [160]) []) []
       ltac:(cbn; lia)) as [H _].
  exact (proj1 (H ltac:(reflexivity))).
Defined.

(** X12.  What the decoder returns, and so what the script writes to the
    file, is a sequence of octets: every element is below 256. *)
Theorem X12_the_file_holds_octets :
  forall (env : Env) (fs : filesystem) (bs : bytes),
    (3 <= length (argv env))%nat ->
    b64decode (payload_of env) = Ret bs ->
    octets bs
    /\ fs_read (files (world (run env fs))) (py "/tmp/whatsapp-qr.png")
       = Some bs.
Proof.
  intros env fs bs Hlen Hd.
  split; [exact (b64decode_octets _ _ Hd)|].
  rewrite (proj1 (run_decoded env fs bs Hlen Hd)); apply fs_read_write.
Qed.

Lemma X12_witness : octets (py "Hello").
Proof.
  exact (proj1 (X12_the_file_holds_octets
                  (by_arg (sample_setting 0) (py "SGVsbG8=") []) []
                  (py "Hello") ltac:(cbn; lia)
                  ltac:(vm_compute; reflexivity))).
Defined.

(** X13.  The helper is started after the file is written, and once: a
    run asks of the helper only how the one command line of [email_qr]
    ends on the file system that already holds the decoded bytes at
    /tmp/whatsapp-qr.png.  Two environments whose helpers agree there
    give the same run. *)
Theorem X13_helper_runs_on_the_saved_file :
  forall (env1 env2 : Env) (fs : filesystem),
    argv env1 = argv env2 ->
    stdin env1 = stdin env2 ->
    clock env1 = clock env2 ->
    userhome env1 = userhome env2 ->
    (forall bs,
       b64decode (payload_of env1) = Ret bs ->
       child env1 (email_cmd env1 (sys_argv env1 1) qr_path)
         (fs_write fs qr_path bs)
       = child env2 (email_cmd env1 (sys_argv env1 1) qr_path)
           (fs_write fs qr_path bs)) ->
    run env1 fs = run env2 fs.
Proof.
  intros env1 env2 fs Ha Hi Hc Hh Hch.
  assert (Hp : payload_of env2 = payload_of env1)
    by (unfold payload_of, raw_payload, sys_argv; now rewrite Ha, Hi).
  assert (Ho : sys_argv env2 1 = sys_argv env1 1)
    by (unfold sys_argv; now rewrite Ha).
  pose proof (email_cmd_ext env1 env2 (sys_argv env1 1) qr_path Hh) as Hcmd.
  destruct (Nat.lt_ge_cases (length (argv env1)) 3) as [Hlt|Hge].
  { rewrite (run_usage env1 fs Hlt).
    rewrite Ha in Hlt; now rewrite (run_usage env2 fs Hlt). }
  assert (Hge2 : (3 <= length (argv env2))%nat) by now rewrite <- Ha.
  destruct (b64decode (payload_of env1)) as [bs|e] eqn:D1.
  - assert (D2 : b64decode (payload_of env2) = Ret bs) by now rewrite Hp.
    specialize (Hch bs eq_refl).
    destruct (child env1 (email_cmd env1 (sys_argv env1 1) qr_path)
                (fs_write fs qr_path bs)) as [r|] eqn:C1.
    + assert (C2 : child env2 (email_cmd env2 (sys_argv env2 1) qr_path)
                     (fs_write fs qr_path bs) = Completed r)
        by now rewrite Ho, <- Hcmd.
      rewrite (run_helper_completed env1 fs bs r Hge D1 C1).
      rewrite (run_helper_completed env2 fs bs r Hge2 D2 C2).
      unfold saved_world; now rewrite Ho, Hc, Hcmd.
    + assert (C2 : child env2 (email_cmd env2 (sys_argv env2 1) qr_path)
                     (fs_write fs qr_path bs) = TimedOut)
        by now rewrite Ho, <- Hcmd.
      rewrite (run_helper_timed_out env1 fs bs Hge D1 C1).
      rewrite (run_helper_timed_out env2 fs bs Hge2 D2 C2).
      unfold saved_world; now rewrite Ho, Hc, Hcmd.
  - assert (D2 : b64decode (payload_of env2) = Raise e) by now rewrite Hp.
    rewrite (run_decode_error env1 fs e Hge D1).
    now rewrite (run_decode_error env2 fs e Hge2 D2).
Qed.

Lemma X13_witness :
  run (by_arg picky_setting (py "SGVsbG8=") []) []
  = run (by_arg (sample_setting 0) (py "SGVsbG8=") []) [].
Proof.
  apply X13_helper_runs_on_the_saved_file; reflexivity.
Defined.

(** X14.  What a run prints once the helper has ended.  On return code 0
    standard output is the saved line, the emailing line and the success
    line, in that order and with three successive readings of the clock,
    and the error stream is empty.  On any other return code standard
    output stops after the emailing line, and the error stream is the
    helper's error text followed by the "Email failed" line, stamped with
    the third reading of the clock. *)
Theorem X14_transcript :
  forall (env : Env) (fs : filesystem) (bs : bytes) (r : CompletedProcess),
    (3 <= length (argv env))%nat ->
    b64decode (payload_of env) = Ret bs ->
    child env (email_cmd env (sys_argv env 1) qr_path) (fs_write fs qr_path bs)
      = Completed r ->
    let w := world (run env fs) in
    let saved :=
      py "[" ++ clock env 0%nat ++ py "] QR image saved ("
        ++ str_of_N (N.of_nat (length bs)) ++ py " bytes)" in
    let emailing :=
      py "[" ++ clock env 1%nat ++ py "] Emailing QR to "
        ++ sys_argv env 1 ++ py "..." in
    (returncode r = 0%Z ->
       stdout w =
         [saved; emailing;
          py "[" ++ clock env 2%nat ++ py "] " ++ [CHECK_MARK]
            ++ py " QR emailed successfully!"]
       /\ stderr w = [])
    /\ (returncode r <> 0%Z ->
          stdout w = [saved; emailing]
          /\ stderr w =
               [py "Email error: " ++ proc_stderr r;
                py "[" ++ clock env 2%nat ++ py "] " ++ [CROSS_MARK]
                  ++ py " Email failed"])
    /\ ticks w = 3%nat.
Proof.
  intros env fs bs r Hlen Hd Hc w saved emailing; subst w saved emailing.
  rewrite (run_helper_completed env fs bs r Hlen Hd Hc); cbn zeta.
  destruct (returncode r =? 0)%Z eqn:Erc.
  - apply Z.eqb_eq in Erc.
    split; [intros _; split; reflexivity|].
    split; [intros Hne; contradiction|reflexivity].
  - apply Z.eqb_neq in Erc.
    split; [intros He; contradiction|].
    split; [intros _; split; reflexivity|reflexivity].
Qed.

Lemma X14_witness :
  stderr (world (run (by_arg (sample_setting 7) (py "SGVsbG8=") []) []))
  = [py "Email error: boom"; py "[12:00:02] " ++ [CROSS_MARK]
                               ++ py " Email failed"].
Proof.
  pose proof
    (X14_transcript
       (by_arg (sample_setting 7) (py "SGVsbG8=") []) [] (py "Hello")
       {| returncode := 7; proc_stdout := []; proc_stderr := py "boom" |}
       ltac:(cbn; lia) ltac:(vm_compute; reflexivity) ltac:(reflexivity))
    as (_ & H & _).
  exact (proj2 (H ltac:(discriminate))).
Defined.


Lemma filter_all {A : Type} (f : A -> bool) (l : list A) :
  forallb f l = true -> filter f l = l.
Proof.
  induction l as [|x l IH]; cbn [forallb filter]; [reflexivity|].
  intros H; apply andb_true_iff in H as [Hx Hl]; now rewrite Hx, IH.
Qed.

(** X16.  Only the PNG prefix is known to the script.  A data URI of
    another media type, "data:image/jpeg;base64," followed by the
    encoding of some octets, keeps its prefix; the decoder drops the
    colon, the semicolon and the comma and takes the twenty letters left
    of the prefix for data, so that the run does not fail: the file
    holds fifteen octets that come from the prefix, and the image after
    them, and the message counts them all. *)
Theorem X16_other_data_uri_is_not_recognised :
  forall (env : Env) (fs : filesystem) (bs : bytes),
    (3 <= length (argv env))%nat ->
    octets bs ->
    raw_payload env = jpeg_uri_prefix ++ b64encode bs ->
    payload_of env = jpeg_uri_prefix ++ b64encode bs
    /\ b64decode (payload_of env) = Ret (jpeg_prefix_octets ++ bs)
    /\ fs_read (files (world (run env fs))) (py "/tmp/whatsapp-qr.png")
       = Some (jpeg_prefix_octets ++ bs)
    /\ nth_error (stdout (world (run env fs))) 0 =
         Some (py "[" ++ clock env 0%nat ++ py "] QR image saved ("
               ++ str_of_N (15 + N.of_nat (length bs)) ++ py " bytes)").
Proof.
  intros env fs bs Hlen Hoct Hraw.
  pose proof (valid_base64_significant _ (b64encode_valid bs Hoct)) as Hsig.
  assert (Hp : payload_of env = jpeg_uri_prefix ++ b64encode bs).
  { unfold payload_of; rewrite Hraw; reflexivity. }
  assert (Hd : b64decode (payload_of env) = Ret (jpeg_prefix_octets ++ bs)).
  { rewrite Hp; unfold b64decode, a2b_base64, isascii.
    rewrite forallb_app.
    fold (isascii (b64encode bs)).
    rewrite (valid_base64_ascii _ (b64encode_valid bs Hoct)).
    change (forallb (fun c => c <? 128) jpeg_uri_prefix && true) with true.
    cbn iota.
    rewrite a2b_loop_filter, filter_app, (filter_all _ _ Hsig).
    change (filter significant jpeg_uri_prefix)
      with (b64encode jpeg_prefix_octets).
    rewrite (a2b_loop_encoded jpeg_prefix_octets
               ltac:(repeat constructor)).
    cbn [length Nat.modulo Nat.divmod fst snd Nat.sub app].
    pose proof (a2b_loop_encoded bs Hoct [] 0 0 jpeg_prefix_octets) as H.
    rewrite app_nil_r in H; rewrite H.
    now destruct (length bs mod 3)%nat. }
  destruct (run_decoded env fs _ Hlen Hd) as (Hf & Hsaved & _).
  split; [exact Hp|].
  split; [exact Hd|].
  split; [rewrite Hf; apply fs_read_write|].
  rewrite Hsaved; do 5 f_equal.
  unfold len; rewrite length_app, Nat2N.inj_add; reflexivity.
Qed.

Lemma X16_witness :
  b64decode (py "data:image/jpeg;base64,SGVsbG8=")
  = Ret (jpeg_prefix_octets ++ py "Hello").
Proof.
  exact (proj1 (proj2 (X16_other_data_uri_is_not_recognised
                         (by_arg (sample_setting 0)
                            (py "data:image/jpeg;base64,SGVsbG8=") [])
                         [] (py "Hello") ltac:(cbn; lia)
                         ltac:(repeat constructor) ltac:(reflexivity)))).
Defined.
